(** * Storefront models of [shop/mainapp]: a shallow embedding

    The development follows [shop/mainapp/models.py] and
    [shop/mainapp/templatetags/specifications.py].  Database tables are
    lists of rows keyed by the automatic primary key [id]; Python
    exceptions are values of [Exception] carried by an exception/state
    monad; decimal amounts with two places are integers counting
    hundredths.  Of the checks a database makes on a row, the ones on
    decimal digits, on unique slugs and on positive integers are
    modelled; foreign keys and text lengths are not. *)

From Stdlib Require Import ZArith List String Ascii Bool Lia.
From Stdlib Require Import Permutation Sorted DecimalString.
Import ListNotations.

Local Open Scope string_scope.
Local Open Scope list_scope.
Local Open Scope Z_scope.

(** ** Exceptions, results, stateful computations *)

Inductive Exception : Type :=
| MinResolutionErrorException (msg : string)
| MaxResolutionErrorException (msg : string)
| ValueError (msg : string)
| UnidentifiedImageError
| KeyError (key : string)
| AttributeError (attr : string)
| InvalidOperation
| IntegrityError.

Inductive result (A : Type) : Type :=
| Ok (a : A)
| Raise (e : Exception).
Arguments Ok {A} a.
Arguments Raise {A} e.

Definition bind {A B : Type} (r : result A) (k : A -> result B) : result B :=
  match r with
  | Ok a => k a
  | Raise e => Raise e
  end.

Notation "x <- r ;; k" := (bind r (fun x => k))
  (at level 61, r at next level, right associativity).

(** A computation over a store [S]: it yields a value or raises, and
    leaves a store behind in both cases. *)
Definition Stateful (S A : Type) : Type := S -> result A * S.

(** ** The persistence layer ([django.db.models.Model]) *)

(** A table keeps its rows in storage order, each under its [id]. *)
Definition Table (M : Type) : Type := list (Z * M).

Definition next_id {M : Type} (tbl : Table M) : Z :=
  1 + fold_right (fun r m => Z.max (fst r) m) 0 tbl.

Fixpoint update_row {M : Type} (i : Z) (m : M) (tbl : Table M) : Table M :=
  match tbl with
  | [] => []
  | (j, old) :: rest =>
      if i =? j then (j, m) :: rest else (j, old) :: update_row i m rest
  end.

Definition has_id {M : Type} (i : Z) (tbl : Table M) : bool :=
  existsb (fun r => i =? fst r) tbl.

(** What the persistence layer reads off a model's field declarations:
    the values of its [DecimalField(max_digits=9, decimal_places=2)]
    fields, in hundredths; the value of its [SlugField(unique=True)],
    if it has one; the values of its [PositiveIntegerField]s. *)
Class Model (M : Type) : Type := {
  decimal_fields : M -> list Z;
  unique_slug : M -> option string;
  positive_integer_fields : M -> list Z
}.

(** A decimal with two places fits [max_digits=9] when its hundredths
    have at most nine digits. *)
Definition fits_max_digits (v : Z) : bool := Z.abs v <? 1000000000.

(** Row [j] is the one an instance saved with [pk] writes over. *)
Definition own_row (pk : option Z) (j : Z) : bool :=
  match pk with
  | Some i => i =? j
  | None => false
  end.

(** Some other row already holds the slug of [self]. *)
Definition slug_taken {M : Type} `{Model M} (pk : option Z) (self : M)
    (tbl : Table M) : bool :=
  match unique_slug self with
  | None => false
  | Some s =>
      existsb (fun r =>
                 negb (own_row pk (fst r))
                 && match unique_slug (snd r) with
                    | Some s' => (s' =? s)%string
                    | None => false
                    end) tbl
  end.

(** [Model.save].  The field values are prepared first, and a decimal
    that needs more than nine digits raises [decimal.InvalidOperation];
    the database then refuses, with [IntegrityError], a negative
    positive-integer field or a slug another row holds.  Otherwise an
    instance without primary key is inserted under a fresh one, and an
    instance with a primary key updates its row, or is inserted when no
    row carries that key.  The primary key of the saved instance is
    returned; a save that raises leaves the table as it was. *)
Definition Model_save {M : Type} `{Model M} (pk : option Z) (self : M)
  : Stateful (Table M) Z :=
  fun tbl =>
    if negb (forallb fits_max_digits (decimal_fields self))
    then (Raise InvalidOperation, tbl)
    else if negb (forallb (Z.leb 0) (positive_integer_fields self))
            || slug_taken pk self tbl
    then (Raise IntegrityError, tbl)
    else
      match pk with
      | None => let i := next_id tbl in (Ok i, tbl ++ [(i, self)])
      | Some i =>
          if has_id i tbl then (Ok i, update_row i self tbl)
          else (Ok i, tbl ++ [(i, self)])
      end.

(** ** Uploaded images ([ImageField] and [PIL.Image]) *)

Module PIL.

Record Image : Type := { height : Z; width : Z }.

(** What an [ImageField] of an instance can hold: nothing (the field
    is declared [blank=True]), a file that is no picture, or a
    picture. *)
Inductive ImageFieldFile : Type :=
| NoFile
| NotAnImage
| ImageFile (img : Image).

(** [Image.open]: seeking in a field without a file raises the
    [ValueError] of [FieldFile._require_file]; an unreadable file
    raises [UnidentifiedImageError]. *)
Definition open (fp : ImageFieldFile) : result Image :=
  match fp with
  | NoFile =>
      Raise (ValueError "The 'image' attribute has no file associated with it.")
  | NotAnImage => Raise UnidentifiedImageError
  | ImageFile img => Ok img
  end.

End PIL.

(** ** [class Product(models.Model)], abstract *)

Module Product.

Definition MIN_RESOLUTION : Z * Z := (300, 300).
Definition MAX_RESOLUTION : Z * Z := (2500, 2500).
Definition MAX_IMAGE_SIZE : Z := 3145728.

Record t : Type := {
  category : Z;
  title : string;
  slug : string;
  image : PIL.ImageFieldFile;
  description : option string;
  price : Z
}.

(** The concrete variants inherit the fields and [save]. *)
Class Variant (M : Type) : Type := {
  base : M -> t;
  model_name : string
}.

(** Every variant has the decimal [price] and the unique [slug]. *)
#[global] Instance variant_model {M : Type} `{Variant M} : Model M :=
  {| decimal_fields := fun self => [price (base self)];
     unique_slug := fun self => Some (slug (base self));
     positive_integer_fields := fun _ => [] |}.

Definition save {M : Type} `{Variant M} (pk : option Z) (self : M)
  : Stateful (Table M) Z :=
  fun tbl =>
    let image := image (base self) in
    match PIL.open image with
    | Raise e => (Raise e, tbl)
    | Ok img =>
        let '(min_height, min_width) := MIN_RESOLUTION in
        let '(max_height, max_width) := MAX_RESOLUTION in
        if (PIL.height img <? min_height) || (PIL.width img <? min_width)
        then (Raise (MinResolutionErrorException
                       "Разрешение фото меньше минимального"), tbl)
        else if (PIL.height img >? max_height) || (PIL.width img >? max_width)
        then (Raise (MaxResolutionErrorException
                       "Разрешение фото больше максимального"), tbl)
        else Model_save pk self tbl
    end.

End Product.

(** ** [class Notebook(Product)] and [class Smartphone(Product)] *)

Module Notebook.

Record t : Type := {
  product : Product.t;
  diagonal : string;
  display_type : string;
  processor_freq : string;
  ram : string;
  video : string;
  time_without_charge : string
}.

#[global] Instance variant : Product.Variant t :=
  {| Product.base := product; Product.model_name := "notebook" |}.

End Notebook.

Module Smartphone.

Record t : Type := {
  product : Product.t;
  diagonal : string;
  display_type : string;
  resolution : string;
  accum_volume : string;
  ram : string;
  sd : bool;
  sd_volume : option string;
  main_cam : string;
  front_cam : string
}.

#[global] Instance variant : Product.Variant t :=
  {| Product.base := product; Product.model_name := "smartphone" |}.

End Smartphone.

(** ** Content types and polymorphic instances *)

Module ContentType.

Record t : Type := { app_label : string; model : string }.

Definition eqb (a b : t) : bool :=
  (app_label a =? app_label b)%string && (model a =? model b)%string.

End ContentType.

Module Category.

Record t : Type := { name : string; slug : string }.

End Category.

(** An object fetched through a content type: one of the two product
    variants, or a row of some other model, of which only the class and
    the primary key matter here. *)
Inductive Instance : Type :=
| INotebook (id : Z) (obj : Notebook.t)
| ISmartphone (id : Z) (obj : Smartphone.t)
| IOther (ct : ContentType.t) (id : Z).

Definition instance_id (x : Instance) : Z :=
  match x with
  | INotebook id _ | ISmartphone id _ | IOther _ id => id
  end.

(** [x.__class__._meta.model_name] *)
Definition meta_model_name (x : Instance) : string :=
  match x with
  | INotebook _ _ => Product.model_name (M := Notebook.t)
  | ISmartphone _ _ => Product.model_name (M := Smartphone.t)
  | IOther ct _ => ContentType.model ct
  end.

Record Database : Type := {
  django_content_type : list ContentType.t;
  mainapp_category : Table Category.t;
  mainapp_notebook : Table Notebook.t;
  mainapp_smartphone : Table Smartphone.t;
  (** primary keys of the rows of every other model, in storage order;
      [None] for a content type whose model class no longer exists *)
  other_rows : ContentType.t -> option (list Z)
}.

Definition ct_notebook : ContentType.t :=
  {| ContentType.app_label := "mainapp"; ContentType.model := "notebook" |}.
Definition ct_smartphone : ContentType.t :=
  {| ContentType.app_label := "mainapp"; ContentType.model := "smartphone" |}.

(** [ct.model_class()._base_manager.all()].  For a stale content type
    [model_class()] is [None], and reading [_base_manager] off it raises
    [AttributeError]. *)
Definition all_objects (db : Database) (ct : ContentType.t)
  : result (list Instance) :=
  if ContentType.eqb ct ct_notebook
  then Ok (map (fun r => INotebook (fst r) (snd r)) (mainapp_notebook db))
  else if ContentType.eqb ct ct_smartphone
  then Ok (map (fun r => ISmartphone (fst r) (snd r)) (mainapp_smartphone db))
  else match other_rows db ct with
       | Some ids => Ok (map (IOther ct) ids)
       | None => Raise (AttributeError "_base_manager")
       end.

(** ** Stable sorting: [sorted] and [order_by] *)

Fixpoint insert_by {A : Type} (le : A -> A -> bool) (x : A) (l : list A)
  : list A :=
  match l with
  | [] => [x]
  | y :: l' => if le x y then x :: l else y :: insert_by le x l'
  end.

Definition stable_sort {A : Type} (le : A -> A -> bool) (l : list A) : list A :=
  fold_right (insert_by le) [] l.

(** Comparison of two elements by a boolean key, [False] before [True]. *)
Definition key_le {A : Type} (key : A -> bool) (x y : A) : bool :=
  implb (key x) (key y).

(** [sorted(l, key=key, reverse=reverse)] for a boolean key.  With
    [reverse] the list is reversed, sorted stably, and reversed again,
    which is how the interpreter keeps equal elements in their original
    order. *)
Definition sorted {A : Type} (l : list A) (key : A -> bool) (reverse : bool)
  : list A :=
  let le := key_le key in
  if reverse then rev (stable_sort le (rev l)) else stable_sort le l.

(** [qs.order_by('-id')] *)
Definition order_by_minus_id (qs : list Instance) : list Instance :=
  stable_sort (fun x y => instance_id y <=? instance_id x) qs.

(** ** [class LatestProductsManager] *)

Module LatestProductsManager.

(** Truth value of [kwargs.get('with_respect_to')] *)
Definition truthy (s : option string) : bool :=
  match s with
  | None => false
  | Some w => negb (w =? "")%string
  end.

(** [s in args] *)
Definition contains (args : list string) (s : string) : bool :=
  existsb (String.eqb s) args.

(** The [for] loop, from the content types still to visit and the
    products gathered so far. *)
Fixpoint fetch_loop (db : Database) (ct_models : list ContentType.t)
    (products : list Instance) : result (list Instance) :=
  match ct_models with
  | [] => Ok products
  | ct_model :: rest =>
      objects <- all_objects db ct_model ;;
      let model_products := firstn 5 (order_by_minus_id objects) in
      fetch_loop db rest (products ++ model_products)
  end.

(** The loop over the content types named in [args]. *)
Definition fetch (db : Database) (args : list string) : result (list Instance) :=
  let ct_models :=
    filter (fun ct => contains args (ContentType.model ct))
           (django_content_type db) in
  fetch_loop db ct_models [].

Definition get_products_for_main_page (db : Database) (args : list string)
    (with_respect_to : option string) : result (list Instance) :=
  products <- fetch db args ;;
  match with_respect_to with
  | Some w =>
      if truthy with_respect_to then
        let ct_model :=
          filter (fun ct => (ContentType.model ct =? w)%string)
                 (django_content_type db) in
        if negb (Nat.eqb (List.length ct_model) 0) then
          if contains args w then
            Ok (sorted products (fun x => prefix w (meta_model_name x)) true)
          else Ok products
        else Ok products
      else Ok products
  | None => Ok products
  end.

End LatestProductsManager.

(** ** Python values reachable through [getattr] *)

Inductive Value : Type :=
| VStr (s : string)
| VBool (b : bool)
| VInt (n : Z)
| VNone.

(** ** Python dictionaries with string keys, in insertion order *)

Definition Dict (V : Type) : Type := list (string * V).

(** [d[key]] *)
Fixpoint dict_get {V : Type} (d : Dict V) (key : string) : result V :=
  match d with
  | [] => Raise (KeyError key)
  | (k, v) :: d' => if (k =? key)%string then Ok v else dict_get d' key
  end.

(** [d.pop(key, None)], the popped value dropped *)
Fixpoint dict_pop {V : Type} (d : Dict V) (key : string) : Dict V :=
  match d with
  | [] => []
  | (k, v) :: d' =>
      if (k =? key)%string then d' else (k, v) :: dict_pop d' key
  end.

(** [d[key] = v]: a present key keeps its place, a new one goes last *)
Fixpoint dict_set {V : Type} (d : Dict V) (key : string) (v : V) : Dict V :=
  match d with
  | [] => [(key, v)]
  | (k, old) :: d' =>
      if (k =? key)%string then (k, v) :: d' else (k, old) :: dict_set d' key v
  end.

(** ** [class CategoryManager] *)

(** [models.Count(model_name)] *)
Inductive Aggregate : Type :=
| Count (relation : string).

Definition get_models_get_count (model_names : list string) : list Aggregate :=
  map Count model_names.

Module CategoryManager.

Definition CATEGORY_NAME_COUNT_NAME : Dict string :=
  [ ("Ноутбуки", "notebook__count");
    ("Смартфоны", "smartphone__count") ].

(** A category as the annotated query returns it. *)
Record Annotated : Type := {
  id : Z;
  fields : Category.t;
  annotations : Dict Z
}.

(** Primary keys of the rows that point to category [c] through the
    reverse relation [relation]. *)
Definition related (db : Database) (c : Z) (relation : string) : list Z :=
  if (relation =? "notebook")%string then
    map fst (filter (fun r => Product.category (Notebook.product (snd r)) =? c)
                    (mainapp_notebook db))
  else if (relation =? "smartphone")%string then
    map fst (filter (fun r => Product.category (Smartphone.product (snd r)) =? c)
                    (mainapp_smartphone db))
  else [].

(** One side of a LEFT OUTER JOIN: the matching keys, or a single NULL. *)
Definition outer_side (keys : list Z) : list (option Z) :=
  match keys with
  | [] => [None]
  | _ => map Some keys
  end.

(** The joined rows of one category: every combination of one entry per
    side. *)
Fixpoint join_rows (sides : list (list (option Z))) : list (list (option Z)) :=
  match sides with
  | [] => [[]]
  | side :: rest => flat_map (fun k => map (cons k) (join_rows rest)) side
  end.

(** [COUNT(column)] counts the joined rows whose column is not NULL. *)
Definition count_column (col : nat) (rows : list (list (option Z))) : Z :=
  Z.of_nat
    (List.length
       (filter (fun row => match nth_error row col with
                           | Some (Some _) => true
                           | _ => false
                           end) rows)).

Fixpoint count_columns (col : nat) (aggs : list Aggregate)
    (rows : list (list (option Z))) : Dict Z :=
  match aggs with
  | [] => []
  | Count relation :: rest =>
      ((relation ++ "__count")%string, count_column col rows)
        :: count_columns (S col) rest rows
  end.

(** [qs.annotate( *aggs )]: the categories are joined with every counted
    relation in one query,
    [SELECT ..., COUNT(r1.id), COUNT(r2.id) FROM category
     LEFT OUTER JOIN r1 ON ... LEFT OUTER JOIN r2 ON ... GROUP BY category.id],
    so each count ranges over the rows of the whole join. *)
Definition annotate (db : Database) (aggs : list Aggregate) : list Annotated :=
  map (fun c =>
         let sides :=
           map (fun a => match a with
                         | Count relation => outer_side (related db (fst c) relation)
                         end) aggs in
         {| id := fst c;
            fields := snd c;
            annotations := count_columns 0 aggs (join_rows sides) |})
      (mainapp_category db).

(** [getattr(c, attr)] on an annotated category *)
Definition getattr (c : Annotated) (attr : string) : result Value :=
  if (attr =? "name")%string then Ok (VStr (Category.name (fields c)))
  else if (attr =? "slug")%string then Ok (VStr (Category.slug (fields c)))
  else if (attr =? "id")%string then Ok (VInt (id c))
  else match dict_get (annotations c) attr with
       | Ok n => Ok (VInt n)
       | Raise _ => Raise (AttributeError attr)
       end.

Record SidebarEntry : Type := {
  name : string;
  url : string;
  count : Value
}.

Section UrlConf.

(** [django.urls.reverse], given by the URL configuration of the
    project. *)
Variable reverse : string -> Dict string -> string.

Definition get_absolute_url (c : Annotated) : string :=
  reverse "category_detail" [("slug", Category.slug (fields c))].

(** The body of the list comprehension, for one category. *)
Definition sidebar_entry (c : Annotated) : result SidebarEntry :=
  let name := Category.name (fields c) in
  let url := get_absolute_url c in
  field <- dict_get CATEGORY_NAME_COUNT_NAME (Category.name (fields c)) ;;
  count <- getattr c field ;;
  Ok {| name := name; url := url; count := count |}.

Fixpoint comprehension (qs : list Annotated) : result (list SidebarEntry) :=
  match qs with
  | [] => Ok []
  | c :: rest =>
      e <- sidebar_entry c ;;
      es <- comprehension rest ;;
      Ok (e :: es)
  end.

Definition get_categories_for_left_sidebar (db : Database)
  : result (list SidebarEntry) :=
  let models := get_models_get_count ["notebook"; "smartphone"] in
  let qs := annotate db models in
  comprehension qs.

End UrlConf.

End CategoryManager.

(** ** [class CartProduct] *)

Module CartProduct.

Record t : Type := {
  user : Z;
  cart : Z;
  content_type : ContentType.t;
  object_id : Z;
  qty : Z;
  final_price : Z
}.

(** The decimal [final_price] and the two positive integers. *)
#[global] Instance model : Model t :=
  {| decimal_fields := fun self => [final_price self];
     unique_slug := fun _ => None;
     positive_integer_fields := fun self => [object_id self; qty self] |}.

(** [self.content_object]: the generic foreign key resolves the pair
    (content type, object id), to [None] when no such row exists. *)
Definition content_object (db : Database) (self : t) : result (option Instance) :=
  objects <- all_objects db (content_type self) ;;
  Ok (find (fun x => instance_id x =? object_id self) objects).

(** [obj.price] *)
Definition price_of (obj : option Instance) : result Z :=
  match obj with
  | Some (INotebook _ n) => Ok (Product.price (Notebook.product n))
  | Some (ISmartphone _ s) => Ok (Product.price (Smartphone.product s))
  | Some (IOther _ _) | None => Raise (AttributeError "price")
  end.

(** [save] returns the primary key and the instance as the assignment
    left it. *)
Definition save (db : Database) (pk : option Z) (self : t)
  : Stateful (Table t) (Z * t) :=
  fun tbl =>
    match obj <- content_object db self ;; price_of obj with
    | Raise e => (Raise e, tbl)
    | Ok price =>
        let self' :=
          {| user := user self; cart := cart self;
             content_type := content_type self; object_id := object_id self;
             qty := qty self; final_price := qty self * price |} in
        match Model_save pk self' tbl with
        | (Ok i, tbl') => (Ok (i, self'), tbl')
        | (Raise e, tbl') => (Raise e, tbl')
        end
    end.

(** [obj.title] *)
Definition title_of (obj : option Instance) : result string :=
  match obj with
  | Some (INotebook _ n) => Ok (Product.title (Notebook.product n))
  | Some (ISmartphone _ s) => Ok (Product.title (Smartphone.product s))
  | Some (IOther _ _) | None => Raise (AttributeError "title")
  end.

(** [__str__]: the format string filled with the title of the referenced
    object. *)
Definition __str__ (db : Database) (self : t) : result string :=
  obj <- content_object db self ;;
  title <- title_of obj ;;
  Ok ("Продукт: " ++ title ++ " (для корзины)")%string.

End CartProduct.

(** ** [class Order] *)

Module Order.

Definition STATUS_NEW : string := "new".
Definition STATUS_IN_PROGRESS : string := "in_progress".
Definition STATUS_READY : string := "is_ready".
Definition STATUS_COMPLETED : string := "completed".

Definition BUYING_TYPE_SELF : string := "self".
Definition BUYING_TYPE_DELIVERY : string := "delivery".

Definition STATUS_CHOICES : list (string * string) :=
  [ (STATUS_NEW, "Новый заказ");
    (STATUS_IN_PROGRESS, "Заказ в обработке");
    (STATUS_READY, "Заказ готов");
    (STATUS_COMPLETED, "Заказ выполнен") ].

Definition BUYING_TYPE_CHOICES : list (string * string) :=
  [ (BUYING_TYPE_SELF, "Самовывоз");
    (BUYING_TYPE_DELIVERY, "Доставка") ].

Record t : Type := {
  customer : Z;
  first_name : string;
  last_name : string;
  phone : string;
  cart : option Z;
  address : option string;
  status : string;
  buying_type : string;
  comment : option string
}.

(** A field declared with [default=d]: the keyword argument when it is
    given, the default otherwise. *)
Definition with_default (d : string) (kwarg : option string) : string :=
  match kwarg with
  | Some v => v
  | None => d
  end.

(** [Order(customer=..., ..., status=..., buying_type=...)] *)
Definition init (customer : Z) (first_name last_name phone : string)
    (cart : option Z) (address : option string)
    (status buying_type : option string) (comment : option string) : t :=
  {| customer := customer; first_name := first_name; last_name := last_name;
     phone := phone; cart := cart; address := address;
     status := with_default STATUS_NEW status;
     buying_type := with_default BUYING_TYPE_SELF buying_type;
     comment := comment |}.

(** The model declares no [save] of its own, no decimal, no unique
    field and no positive integer: [Order.save] is [Model.save]. *)
#[global] Instance model : Model t :=
  {| decimal_fields := fun _ => [];
     unique_slug := fun _ => None;
     positive_integer_fields := fun _ => [] |}.

(** The values a field declared with [choices] admits. *)
Definition admitted (choices : list (string * string)) (value : string) : bool :=
  existsb (fun c => (fst c =? value)%string) choices.

End Order.

(** ** Template filter [product_spec] ([templatetags/specifications.py]) *)

Module Specifications.

Definition dquote : string := String (ascii_of_nat 34) EmptyString.

Definition TABLE_HEAD : string :=
  ("
                <table class=" ++ dquote ++ "table" ++ dquote ++ ">
                    <tbody>
             ")%string.

Definition TABLE_TAIL : string :=
  ("
                    </tbody>
                </table>   
             ")%string.

(** [TABLE_CONTENT.format(name=name, value=value)] *)
Definition TABLE_CONTENT (name value : string) : string :=
  ("
                    <tr>
                        <td>" ++ name ++ "</td>
                        <td>" ++ value ++ "</td>
                    </tr>
                ")%string.

(** The module-level dictionary; every call of the filter reads and
    writes it, so it is threaded as the store. *)
Definition PRODUCT_SPEC : Dict (Dict string) :=
  [ ("notebook",
     [ ("Диагональ", "diagonal");
       ("Тип дисплея", "display_type");
       ("Частота процессора", "processor_freq");
       ("Оперативная память", "ram");
       ("Видеокарта", "video");
       ("Время работы аккумулятора", "time_without_charge") ]);
    ("smartphone",
     [ ("Диагональ", "diagonal");
       ("Тип дисплея", "display_type");
       ("Разрешение экрана", "resolution");
       ("Объем батареи", "accum_volume");
       ("Оперативная память", "ram");
       ("SD карта", "sd");
       ("Макс. объём встраиваемой памяти", "sd_volume");
       ("Камера (МП)", "main_cam");
       ("Фронтальная камера (МП)", "front_cam") ]) ].

(** [str(v)], as [str.format] applies it *)
Definition str (v : Value) : string :=
  match v with
  | VStr s => s
  | VBool true => "True"
  | VBool false => "False"
  | VInt n => NilZero.string_of_int (Z.to_int n)
  | VNone => "None"
  end.

Definition opt_str (o : option string) : Value :=
  match o with
  | Some s => VStr s
  | None => VNone
  end.

Definition getattr_product (p : Product.t) (attr : string) : result Value :=
  if (attr =? "title")%string then Ok (VStr (Product.title p))
  else if (attr =? "slug")%string then Ok (VStr (Product.slug p))
  else if (attr =? "description")%string then Ok (opt_str (Product.description p))
  else Raise (AttributeError attr).

(** [getattr(product, attr)] for the text and boolean attributes of the
    two variants, the ones a specification table can name. *)
Definition getattr (product : Instance) (attr : string) : result Value :=
  match product with
  | INotebook _ n =>
      if (attr =? "diagonal")%string then Ok (VStr (Notebook.diagonal n))
      else if (attr =? "display_type")%string then Ok (VStr (Notebook.display_type n))
      else if (attr =? "processor_freq")%string then Ok (VStr (Notebook.processor_freq n))
      else if (attr =? "ram")%string then Ok (VStr (Notebook.ram n))
      else if (attr =? "video")%string then Ok (VStr (Notebook.video n))
      else if (attr =? "time_without_charge")%string
      then Ok (VStr (Notebook.time_without_charge n))
      else getattr_product (Notebook.product n) attr
  | ISmartphone _ s =>
      if (attr =? "diagonal")%string then Ok (VStr (Smartphone.diagonal s))
      else if (attr =? "display_type")%string then Ok (VStr (Smartphone.display_type s))
      else if (attr =? "resolution")%string then Ok (VStr (Smartphone.resolution s))
      else if (attr =? "accum_volume")%string then Ok (VStr (Smartphone.accum_volume s))
      else if (attr =? "ram")%string then Ok (VStr (Smartphone.ram s))
      else if (attr =? "sd")%string then Ok (VBool (Smartphone.sd s))
      else if (attr =? "sd_volume")%string then Ok (opt_str (Smartphone.sd_volume s))
      else if (attr =? "main_cam")%string then Ok (VStr (Smartphone.main_cam s))
      else if (attr =? "front_cam")%string then Ok (VStr (Smartphone.front_cam s))
      else getattr_product (Smartphone.product s) attr
  | IOther _ _ => Raise (AttributeError attr)
  end.

(** The loop of [get_product_spec] over the items of one table. *)
Fixpoint render_items (product : Instance) (items : Dict string)
    (table_content : string) : result string :=
  match items with
  | [] => Ok table_content
  | (name, value) :: rest =>
      v <- getattr product value ;;
      render_items product rest
        (table_content ++ TABLE_CONTENT name (str v))%string
  end.

Definition get_product_spec (spec : Dict (Dict string)) (product : Instance)
    (model_name : string) : result string :=
  items <- dict_get spec model_name ;;
  render_items product items "".

(** [mark_safe] only marks the string. *)
Definition mark_safe (s : string) : string := s.

(** The branch on [isinstance(product, Smartphone)]: the inner
    dictionary is changed in place, so the outer one keeps its keys. *)
Definition toggle_sd_row (product : Instance)
  : Stateful (Dict (Dict string)) unit :=
  fun spec =>
    match product with
    | ISmartphone _ s =>
        match dict_get spec "smartphone" with
        | Raise e => (Raise e, spec)
        | Ok inner =>
            if negb (Smartphone.sd s)
            then (Ok tt, dict_set spec "smartphone"
                           (dict_pop inner "Максимальный объем SD карты"))
            else (Ok tt, dict_set spec "smartphone"
                           (dict_set inner "Макс. объём встраиваемой памяти"
                                     "sd_volume"))
        end
    | _ => (Ok tt, spec)
    end.

Definition product_spec (product : Instance)
  : Stateful (Dict (Dict string)) string :=
  fun spec =>
    let model_name := meta_model_name product in
    match toggle_sd_row product spec with
    | (Raise e, spec') => (Raise e, spec')
    | (Ok _, spec') =>
        match get_product_spec spec' product model_name with
        | Raise e => (Raise e, spec')
        | Ok table => (Ok (mark_safe (TABLE_HEAD ++ table ++ TABLE_TAIL)%string), spec')
        end
    end.

End Specifications.

(** ** Vocabulary of the statements *)

(** The row stored under primary key [i], as a query by [id] finds it. *)
Definition Table_get {M : Type} (i : Z) (tbl : Table M) : option (Z * M) :=
  find (fun r => fst r =? i) tbl.

Definition within_bounds (img : PIL.Image) : Prop :=
  300 <= PIL.height img <= 2500 /\ 300 <= PIL.width img <= 2500.

Definition image_within_bounds (p : Product.t) : Prop :=
  exists img, Product.image p = PIL.ImageFile img /\ within_bounds img.

(** Every row of a product table carries a picture within the bounds. *)
Definition table_ok {M : Type} `{Product.Variant M} (tbl : Table M) : Prop :=
  Forall (fun r => image_within_bounds (Product.base (snd r))) tbl.

(** A sequence of [save] calls; a call that raises leaves the table as
    it found it. *)
Definition save_all {M : Type} `{Product.Variant M}
    (calls : list (option Z * M)) (tbl : Table M) : Table M :=
  fold_left (fun t c => snd (Product.save (fst c) (snd c) t)) calls tbl.

(** [row] occurs in the rendered text [out]. *)
Definition occurs_in (row out : string) : Prop :=
  exists before after, out = (before ++ row ++ after)%string.

(** The content types a call with [args] iterates over. *)
Definition requested (db : Database) (args : list string) : list ContentType.t :=
  filter (fun ct => LatestProductsManager.contains args (ContentType.model ct))
         (django_content_type db).

(** [chunk] holds the five rows of [rows] with the greatest [id] (all of
    them when there are fewer), greatest [id] first.  The ranking is by
    primary key, whatever the order in which the rows were created. *)
Definition greatest_5_ids (rows chunk : list Instance) : Prop :=
  List.length chunk = Nat.min 5 (List.length rows)
  /\ StronglySorted (fun x y => instance_id y <= instance_id x) chunk
  /\ exists rest,
       Permutation rows (chunk ++ rest)
       /\ forall x y, In x chunk -> In y rest -> instance_id y <= instance_id x.

(** One pass of the loop: [all().order_by('-id')[:5]] on the rows of a
    model. *)
Definition latest_5 (rows : list Instance) : list Instance :=
  firstn 5 (order_by_minus_id rows).

(** The five rows created last, last created first: a table keeps its
    rows in the order of their creation. *)
Definition latest_created_5 (rows : list Instance) : list Instance :=
  firstn 5 (rev rows).

(** The primary keys grow with the order of creation, as they do when
    every row got its key from the database. *)
Definition keys_grow (rows : list Instance) : Prop :=
  StronglySorted (fun x y => instance_id x < instance_id y) rows.

(** [f] applied to what a computation returns. *)
Definition result_map {A B : Type} (f : A -> B) (r : result A) : result B :=
  match r with
  | Ok a => Ok (f a)
  | Raise e => Raise e
  end.

(** Two computations raise the same exception, or return values that
    [R] relates. *)
Definition same_outcome {A : Type} (R : A -> A -> Prop) (r1 r2 : result A) : Prop :=
  match r1, r2 with
  | Ok a, Ok b => R a b
  | Raise e1, Raise e2 => e1 = e2
  | _, _ => False
  end.

(** The rows a content type stands for, read off the tables: the
    notebooks, the smartphones, or the rows of another model; nothing
    when the model class is gone. *)
Definition stored_rows (db : Database) (ct : ContentType.t)
  : option (list Instance) :=
  if ContentType.eqb ct ct_notebook
  then Some (map (fun r => INotebook (fst r) (snd r)) (mainapp_notebook db))
  else if ContentType.eqb ct ct_smartphone
  then Some (map (fun r => ISmartphone (fst r) (snd r)) (mainapp_smartphone db))
  else option_map (map (IOther ct)) (other_rows db ct).

(** The price of the product a line item points to, read off the
    product tables: the row of the notebook, or smartphone, table whose
    [id] is the item's [object_id]. *)
Definition referenced_price (db : Database) (self : CartProduct.t) : option Z :=
  if ContentType.eqb (CartProduct.content_type self) ct_notebook
  then option_map (fun r => Product.price (Notebook.product (snd r)))
                  (find (fun r => fst r =? CartProduct.object_id self)
                        (mainapp_notebook db))
  else if ContentType.eqb (CartProduct.content_type self) ct_smartphone
  then option_map (fun r => Product.price (Smartphone.product (snd r)))
                  (find (fun r => fst r =? CartProduct.object_id self)
                        (mainapp_smartphone db))
  else None.

(** The title of that product, read off the tables in the same way. *)
Definition referenced_title (db : Database) (self : CartProduct.t)
  : option string :=
  if ContentType.eqb (CartProduct.content_type self) ct_notebook
  then option_map (fun r => Product.title (Notebook.product (snd r)))
                  (find (fun r => fst r =? CartProduct.object_id self)
                        (mainapp_notebook db))
  else if ContentType.eqb (CartProduct.content_type self) ct_smartphone
  then option_map (fun r => Product.title (Smartphone.product (snd r)))
                  (find (fun r => fst r =? CartProduct.object_id self)
                        (mainapp_smartphone db))
  else None.

(** [x] was fetched through content type [ct]. *)
Definition from_content_type (ct : ContentType.t) (x : Instance) : bool :=
  match x with
  | INotebook _ _ => ContentType.eqb ct ct_notebook
  | ISmartphone _ _ => ContentType.eqb ct ct_smartphone
  | IOther c _ => ContentType.eqb ct c
  end.

(** What [CartProduct.save] makes of the outcome of [Model.save] on the
    instance [saved]. *)
Definition saved_as (saved : CartProduct.t)
    (outcome : result Z * Table CartProduct.t)
  : result (Z * CartProduct.t) * Table CartProduct.t :=
  match outcome with
  | (Ok i, tbl') => (Ok (i, saved), tbl')
  | (Raise e, tbl') => (Raise e, tbl')
  end.

(** The call reaches its [sorted] expression. *)
Definition reordering_applies (db : Database) (args : list string)
    (with_respect_to : option string) : bool :=
  match with_respect_to with
  | None => false
  | Some w =>
      negb (w =? "")%string
      && existsb (fun ct => (ContentType.model ct =? w)%string)
                 (django_content_type db)
      && LatestProductsManager.contains args w
  end.



Definition starts_with (w : string) (x : Instance) : bool :=
  prefix w (meta_model_name x).

(** The line item [self] with its subtotal replaced. *)
Definition with_final_price (self : CartProduct.t) (amount : Z) : CartProduct.t :=
  {| CartProduct.user := CartProduct.user self;
     CartProduct.cart := CartProduct.cart self;
     CartProduct.content_type := CartProduct.content_type self;
     CartProduct.object_id := CartProduct.object_id self;
     CartProduct.qty := CartProduct.qty self;
     CartProduct.final_price := amount |}.

(** A join column that is not NULL. *)
Definition not_null (k : option Z) : bool :=
  match k with
  | Some _ => true
  | None => false
  end.

(** A sequence of renderings, each working on the dictionary the
    previous one left behind. *)
Definition render_all (products : list Instance) (spec : Dict (Dict string))
  : Dict (Dict string) :=
  fold_left (fun d p => snd (Specifications.product_spec p d)) products spec.

(** The rows of a table, one after the other, from (label, text) pairs. *)
Fixpoint rows_text (rows : list (string * string)) : string :=
  match rows with
  | [] => ""
  | (label, text) :: rest =>
      (Specifications.TABLE_CONTENT label text ++ rows_text rest)%string
  end.

(** The two category names the sidebar has a count for. *)
Definition known_label (name : string) : Prop :=
  name = "Ноутбуки" \/ name = "Смартфоны".

(** Number of notebooks, of smartphones, that point to category [c]. *)
Definition notebooks_in (db : Database) (c : Z) : nat :=
  List.length (CategoryManager.related db c "notebook").

Definition smartphones_in (db : Database) (c : Z) : nat :=
  List.length (CategoryManager.related db c "smartphone").

(** The count the sidebar shows for a category: the size of the join of
    its notebooks with its smartphones, an absent side counting once. *)
Definition sidebar_count (db : Database) (c : Z * Category.t) : Z :=
  if ("Ноутбуки" =? Category.name (snd c))%string
  then Z.of_nat (notebooks_in db (fst c))
       * Z.of_nat (Nat.max 1 (smartphones_in db (fst c)))
  else Z.of_nat (Nat.max 1 (notebooks_in db (fst c)))
       * Z.of_nat (smartphones_in db (fst c)).

(** What the sidebar entry [e] of category [c] must be. *)
Definition entry_of (reverse : string -> Dict string -> string) (db : Database)
    (c : Z * Category.t) (e : CategoryManager.SidebarEntry) : Prop :=
  CategoryManager.name e = Category.name (snd c)
  /\ CategoryManager.url e
     = reverse "category_detail" [("slug", Category.slug (snd c))]
  /\ CategoryManager.count e = VInt (sidebar_count db c).

(** [q] is category [c] as the annotated query returns it. *)
Definition annotated_as (db : Database) (c : Z * Category.t)
    (q : CategoryManager.Annotated) : Prop :=
  CategoryManager.fields q = snd c
  /\ CategoryManager.annotations q
     = [ ("notebook__count",
          Z.of_nat (notebooks_in db (fst c))
          * Z.of_nat (Nat.max 1 (smartphones_in db (fst c))));
         ("smartphone__count",
          Z.of_nat (Nat.max 1 (notebooks_in db (fst c)))
          * Z.of_nat (smartphones_in db (fst c))) ].

(** ** Sample data *)

Module Sample.

Definition picture (h w : Z) : PIL.ImageFieldFile :=
  PIL.ImageFile {| PIL.height := h; PIL.width := w |}.

(** The slug of a sample product is made from its price, so that products
    of different prices have different slugs. *)
Definition product (cat : Z) (img : PIL.ImageFieldFile) (price : Z) : Product.t :=
  {| Product.category := cat; Product.title := "title";
     Product.slug := ("slug-" ++ NilZero.string_of_int (Z.to_int price))%string;
     Product.image := img; Product.description := None;
     Product.price := price |}.

Definition notebook (cat : Z) (img : PIL.ImageFieldFile) (price : Z) : Notebook.t :=
  {| Notebook.product := product cat img price;
     Notebook.diagonal := "15.6"; Notebook.display_type := "IPS";
     Notebook.processor_freq := "3.2"; Notebook.ram := "16";
     Notebook.video := "GeForce"; Notebook.time_without_charge := "10" |}.

Definition smartphone (cat : Z) (price : Z) (sd : bool) (sd_volume : option string)
  : Smartphone.t :=
  {| Smartphone.product := product cat (picture 600 600) price;
     Smartphone.diagonal := "6.1"; Smartphone.display_type := "OLED";
     Smartphone.resolution := "2532x1170"; Smartphone.accum_volume := "3000";
     Smartphone.ram := "6"; Smartphone.sd := sd;
     Smartphone.sd_volume := sd_volume;
     Smartphone.main_cam := "12"; Smartphone.front_cam := "8" |}.

Definition ct_cart : ContentType.t :=
  {| ContentType.app_label := "mainapp"; ContentType.model := "cart" |}.
Definition ct_cartproduct : ContentType.t :=
  {| ContentType.app_label := "mainapp"; ContentType.model := "cartproduct" |}.

(** A catalogue: category 1 is "Ноутбуки" and holds three notebooks and
    two smartphones; category 2 is "Смартфоны" and is empty. *)
Definition shop : Database :=
  {| django_content_type := [ct_cartproduct; ct_cart; ct_notebook; ct_smartphone];
     mainapp_category :=
       [ (1, {| Category.name := "Ноутбуки"; Category.slug := "notebooks" |});
         (2, {| Category.name := "Смартфоны"; Category.slug := "smartphones" |}) ];
     mainapp_notebook :=
       [ (1, notebook 1 (picture 600 800) 1000);
         (2, notebook 1 (picture 600 800) 2000);
         (3, notebook 1 (picture 600 800) 3000) ];
     mainapp_smartphone :=
       [ (1, smartphone 1 500 false (Some "64"));
         (2, smartphone 1 700 true (Some "128")) ];
     other_rows := fun ct =>
       if ContentType.eqb ct ct_cartproduct then Some [1; 2]
       else if ContentType.eqb ct ct_cart then Some [1]
       else Some [] |}.

(** The same catalogue with a third category under another name. *)
Definition shop_with_tablets : Database :=
  {| django_content_type := django_content_type shop;
     mainapp_category :=
       mainapp_category shop
         ++ [ (3, {| Category.name := "Планшеты"; Category.slug := "tablets" |}) ];
     mainapp_notebook := mainapp_notebook shop;
     mainapp_smartphone := mainapp_smartphone shop;
     other_rows := other_rows shop |}.

Definition line (ct : ContentType.t) (object_id qty : Z) : CartProduct.t :=
  {| CartProduct.user := 1; CartProduct.cart := 1;
     CartProduct.content_type := ct; CartProduct.object_id := object_id;
     CartProduct.qty := qty; CartProduct.final_price := 99999 |}.

Definition reverse (viewname : string) (kwargs : Dict string) : string :=
  match dict_get kwargs "slug" with
  | Ok s => ("/" ++ viewname ++ "/" ++ s ++ "/")%string
  | Raise _ => ("/" ++ viewname ++ "/")%string
  end.

End Sample.

(** A catalogue in which each category holds one variant only: three
    notebooks under "Ноутбуки", two smartphones under "Смартфоны". *)
Definition tidy_shop : Database :=
  {| django_content_type := [ct_notebook; ct_smartphone];
     mainapp_category := mainapp_category Sample.shop;
     mainapp_notebook := mainapp_notebook Sample.shop;
     mainapp_smartphone :=
       [ (1, Sample.smartphone 2 500 false (Some "64"));
         (2, Sample.smartphone 2 700 true (Some "128")) ];
     other_rows := fun _ => Some [] |}.

(** A catalogue with one notebook, priced 9999999.99. *)
Definition dear_shop : Database :=
  {| django_content_type := [ct_notebook; ct_smartphone];
     mainapp_category := mainapp_category Sample.shop;
     mainapp_notebook := [(1, Sample.notebook 1 (Sample.picture 600 800) 999999999)];
     mainapp_smartphone := [];
     other_rows := fun _ => Some [] |}.

(** Six calls of [Product.save] that give the keys 10 to 14 and then the
    key 1, and the catalogue whose notebooks they created. *)
Definition rekeyed_saves : list (option Z * Notebook.t) :=
  [ (Some 10, Sample.notebook 1 (Sample.picture 600 800) 10);
    (Some 11, Sample.notebook 1 (Sample.picture 600 800) 11);
    (Some 12, Sample.notebook 1 (Sample.picture 600 800) 12);
    (Some 13, Sample.notebook 1 (Sample.picture 600 800) 13);
    (Some 14, Sample.notebook 1 (Sample.picture 600 800) 14);
    (Some 1, Sample.notebook 1 (Sample.picture 600 800) 1) ].

Definition rekeyed_shop : Database :=
  {| django_content_type := [ct_notebook; ct_smartphone];
     mainapp_category := mainapp_category Sample.shop;
     mainapp_notebook := save_all rekeyed_saves [];
     mainapp_smartphone := [];
     other_rows := fun _ => Some [] |}.

(** A catalogue that still lists the content type of a model, [tablet],
    whose class is gone. *)
Definition ct_tablet : ContentType.t :=
  {| ContentType.app_label := "mainapp"; ContentType.model := "tablet" |}.

Definition stale_shop : Database :=
  {| django_content_type := [ct_notebook; ct_tablet; ct_smartphone];
     mainapp_category := mainapp_category Sample.shop;
     mainapp_notebook := mainapp_notebook Sample.shop;
     mainapp_smartphone := mainapp_smartphone Sample.shop;
     other_rows := fun ct =>
       if ContentType.eqb ct ct_tablet then None else Some [] |}.

(** * Properties *)

(** ** The persistence layer *)

Section ModelSave.

Context {M : Type} {Mo : Model M}.

Lemma next_id_above (tbl : Table M) (r : Z * M) :
  In r tbl -> fst r < next_id tbl.
Proof.
  unfold next_id.
  induction tbl as [|a tbl IH]; cbn [fold_right In]; [contradiction|].
  intros [->|Hin]; [lia|].
  specialize (IH Hin). lia.
Qed.

Lemma next_id_fresh (tbl : Table M) : has_id (next_id tbl) tbl = false.
Proof.
  unfold has_id.
  destruct (existsb _ tbl) eqn:E; [|reflexivity].
  apply existsb_exists in E as (r & Hin & Heq).
  apply next_id_above in Hin. lia.
Qed.

Lemma get_update_row (i : Z) (m : M) (tbl : Table M) :
  has_id i tbl = true -> Table_get i (update_row i m tbl) = Some (i, m).
Proof.
  unfold has_id, Table_get.
  induction tbl as [|[j old] tbl IH]; simpl; [discriminate|].
  destruct (i =? j) eqn:E; simpl.
  - intros _. apply Z.eqb_eq in E. subst j. now rewrite Z.eqb_refl.
  - intros H. rewrite Z.eqb_sym, E. now apply IH.
Qed.

Lemma get_append_new (i : Z) (m : M) (tbl : Table M) :
  has_id i tbl = false -> Table_get i (tbl ++ [(i, m)]) = Some (i, m).
Proof.
  unfold has_id, Table_get.
  induction tbl as [|[j old] tbl IH]; simpl.
  - intros _. now rewrite Z.eqb_refl.
  - destruct (i =? j) eqn:E; simpl; [discriminate|].
    intros H. rewrite Z.eqb_sym, E. now apply IH.
Qed.

(** When [Model.save] returns, the row under the returned key is the
    saved instance. *)
Lemma Model_save_stores (pk : option Z) (self : M) (tbl tbl' : Table M) (i : Z) :
  Model_save pk self tbl = (Ok i, tbl') ->
  Table_get i tbl' = Some (i, self).
Proof.
  unfold Model_save.
  destruct (negb (forallb fits_max_digits (decimal_fields self)));
    [discriminate|].
  destruct (negb (forallb (Z.leb 0) (positive_integer_fields self))
            || slug_taken pk self tbl); [discriminate|].
  destruct pk as [j|].
  - destruct (has_id j tbl) eqn:E; intros H; injection H as <- <-.
    + now apply get_update_row.
    + now apply get_append_new.
  - intros H. injection H as <- <-. apply get_append_new, next_id_fresh.
Qed.


(** A decimal of ten digits or more makes it raise before the table is
    looked at. *)
Lemma Model_save_digits (pk : option Z) (self : M) (tbl : Table M) (v : Z) :
  In v (decimal_fields self) ->
  1000000000 <= Z.abs v ->
  Model_save pk self tbl = (Raise InvalidOperation, tbl).
Proof.
  intros Hin Hv. unfold Model_save.
  destruct (forallb fits_max_digits (decimal_fields self)) eqn:E;
    [|reflexivity].
  rewrite forallb_forall in E. specialize (E v Hin).
  unfold fits_max_digits in E. apply Z.ltb_lt in E. lia.
Qed.

Lemma In_update_row (i : Z) (m : M) (tbl : Table M) (r : Z * M) :
  In r (update_row i m tbl) -> In r tbl \/ snd r = m.
Proof.
  induction tbl as [|[j old] tbl IH]; simpl; [tauto|].
  destruct (i =? j); simpl.
  - intros [<-|H]; simpl; tauto.
  - intros [<-|H]; [tauto|]. destruct (IH H); tauto.
Qed.

(** Rows after [Model.save] are old rows or the saved instance. *)
Lemma Model_save_rows (pk : option Z) (self : M) (tbl : Table M) (r : Z * M) :
  In r (snd (Model_save pk self tbl)) -> In r tbl \/ snd r = self.
Proof.
  unfold Model_save.
  destruct (negb (forallb fits_max_digits (decimal_fields self)));
    [simpl; tauto|].
  destruct (negb (forallb (Z.leb 0) (positive_integer_fields self))
            || slug_taken pk self tbl); [simpl; tauto|].
  destruct pk as [i|]; [destruct (has_id i tbl)|]; simpl.
  - apply In_update_row.
  - rewrite in_app_iff. simpl. intros [H|[<-|[]]]; simpl; tauto.
  - rewrite in_app_iff. simpl. intros [H|[<-|[]]]; simpl; tauto.
Qed.

End ModelSave.

(** ** [Product.save] *)

Section ProductSave.

Context {M : Type} `{V : Product.Variant M}.

Lemma save_too_small (pk : option Z) (self : M) (tbl : Table M) (img : PIL.Image) :
  Product.image (Product.base self) = PIL.ImageFile img ->
  PIL.height img < 300 \/ PIL.width img < 300 ->
  Product.save pk self tbl
  = (Raise (MinResolutionErrorException "Разрешение фото меньше минимального"), tbl).
Proof.
  intros Himg Hsmall. unfold Product.save. rewrite Himg. simpl.
  replace ((PIL.height img <? 300) || (PIL.width img <? 300)) with true;
    [reflexivity|].
  symmetry. apply orb_true_iff.
  destruct Hsmall; [left|right]; now apply Z.ltb_lt.
Qed.

Lemma save_too_large (pk : option Z) (self : M) (tbl : Table M) (img : PIL.Image) :
  Product.image (Product.base self) = PIL.ImageFile img ->
  300 <= PIL.height img -> 300 <= PIL.width img ->
  PIL.height img > 2500 \/ PIL.width img > 2500 ->
  Product.save pk self tbl
  = (Raise (MaxResolutionErrorException "Разрешение фото больше максимального"), tbl).
Proof.
  intros Himg Hh Hw Hlarge. unfold Product.save. rewrite Himg. simpl.
  replace (PIL.height img <? 300) with false by (symmetry; apply Z.ltb_ge; lia).
  replace (PIL.width img <? 300) with false by (symmetry; apply Z.ltb_ge; lia).
  simpl.
  replace ((PIL.height img >? 2500) || (PIL.width img >? 2500)) with true;
    [reflexivity|].
  symmetry. apply orb_true_iff. rewrite !Z.gtb_ltb.
  destruct Hlarge; [left|right]; apply Z.ltb_lt; lia.
Qed.

Lemma save_within_bounds (pk : option Z) (self : M) (tbl : Table M) (img : PIL.Image) :
  Product.image (Product.base self) = PIL.ImageFile img ->
  within_bounds img ->
  Product.save pk self tbl = Model_save pk self tbl.
Proof.
  intros Himg [Hh Hw]. unfold Product.save. rewrite Himg. simpl.
  replace (PIL.height img <? 300) with false by (symmetry; apply Z.ltb_ge; lia).
  replace (PIL.width img <? 300) with false by (symmetry; apply Z.ltb_ge; lia).
  rewrite !Z.gtb_ltb.
  replace (2500 <? PIL.height img) with false by (symmetry; apply Z.ltb_ge; lia).
  replace (2500 <? PIL.width img) with false by (symmetry; apply Z.ltb_ge; lia).
  reflexivity.
Qed.

(** Whatever the picture, [save] either leaves the table alone or hands
    an instance with a picture within the bounds to [Model.save]. *)
Lemma save_cases (pk : option Z) (self : M) (tbl : Table M) :
  (exists e, Product.save pk self tbl = (Raise e, tbl))
  \/ (image_within_bounds (Product.base self)
      /\ Product.save pk self tbl = Model_save pk self tbl).
Proof.
  destruct (Product.image (Product.base self)) as [| |img] eqn:Himg.
  - left. unfold Product.save. rewrite Himg. simpl. eauto.
  - left. unfold Product.save. rewrite Himg. simpl. eauto.
  - destruct (Z_lt_dec (PIL.height img) 300) as [Hh|Hh].
    { left. eexists. apply (save_too_small _ _ _ img); auto. }
    destruct (Z_lt_dec (PIL.width img) 300) as [Hw|Hw].
    { left. eexists. apply (save_too_small _ _ _ img); auto. }
    destruct (Z_gt_dec (PIL.height img) 2500) as [Gh|Gh].
    { left. eexists. apply (save_too_large _ _ _ img); auto; lia. }
    destruct (Z_gt_dec (PIL.width img) 2500) as [Gw|Gw].
    { left. eexists. apply (save_too_large _ _ _ img); auto; lia. }
    right. assert (within_bounds img) by (unfold within_bounds; lia).
    split; [exists img; auto | now apply (save_within_bounds _ _ _ img)].
Qed.

Lemma save_preserves_table_ok (pk : option Z) (self : M) (tbl : Table M) :
  table_ok tbl -> table_ok (snd (Product.save pk self tbl)).
Proof.
  intros Hok.
  destruct (save_cases pk self tbl) as [[e He]|[Hb He]]; rewrite He; simpl; auto.
  unfold table_ok in *. rewrite Forall_forall in *.
  intros r Hr. apply Model_save_rows in Hr as [Hr| ->]; auto.
Qed.

Lemma save_all_preserves_table_ok (calls : list (option Z * M)) (tbl : Table M) :
  table_ok tbl -> table_ok (save_all calls tbl).
Proof.
  unfold save_all. revert tbl.
  induction calls as [|c calls IH]; simpl; intros tbl Hok; auto.
  apply IH, save_preserves_table_ok, Hok.
Qed.

End ProductSave.




(** C9.  When a picture breaks both bounds at once, one dimension below
    300 and the other above 2500, [Product.save] raises the "too small"
    error and not the "too large" one, and stores nothing: the minimum
    is checked first. *)
Theorem C9_min_resolution_checked_first
    (M : Type) (V : Product.Variant M)
    (pk : option Z) (self : M) (tbl : Table M) (img : PIL.Image) :
  Product.image (Product.base self) = PIL.ImageFile img ->
  (PIL.height img < 300 /\ PIL.width img > 2500)
  \/ (PIL.width img < 300 /\ PIL.height img > 2500) ->
  Product.save pk self tbl
  = (Raise (MinResolutionErrorException "Разрешение фото меньше минимального"), tbl)
  /\ forall msg,
       Product.save pk self tbl <> (Raise (MaxResolutionErrorException msg), tbl).
Proof.
  intros Himg Hboth.
  assert (Hsave : Product.save pk self tbl
                  = (Raise (MinResolutionErrorException
                              "Разрешение фото меньше минимального"), tbl)).
  { apply (save_too_small pk self tbl img Himg).
    destruct Hboth as [[Hh _]|[Hw _]]; auto. }
  split; [exact Hsave|].
  intros msg. rewrite Hsave. intros Heq. discriminate Heq.
Qed.

Lemma C9_min_resolution_checked_first_witness :
  Product.save (Some 7) (Sample.notebook 1 (Sample.picture 3000 100) 1000) []
  = (Raise (MinResolutionErrorException "Разрешение фото меньше минимального"), [])
  /\ forall msg,
       Product.save (Some 7) (Sample.notebook 1 (Sample.picture 3000 100) 1000) []
       <> (Raise (MaxResolutionErrorException msg), []).
Proof.
  apply (C9_min_resolution_checked_first Notebook.t _ (Some 7)
           (Sample.notebook 1 (Sample.picture 3000 100) 1000) []
           {| PIL.height := 3000; PIL.width := 100 |}).
  - reflexivity.
  - right. simpl. lia.
Defined.

(** C10.  [Product.save] opens the picture before any check: an
    instance without a picture makes it raise, and the table stays as it
    was, although the field is optional.  Hence a table whose rows all
    carry a picture within the bounds keeps that property through any
    sequence of saves; in particular every table filled by saves alone
    has it. *)
Theorem C10_image_required
    (M : Type) (V : Product.Variant M) :
  (forall (pk : option Z) (self : M) (tbl : Table M),
      Product.image (Product.base self) = PIL.NoFile ->
      exists msg, Product.save pk self tbl = (Raise (ValueError msg), tbl))
  /\ (forall (calls : list (option Z * M)) (tbl : Table M),
         table_ok tbl -> table_ok (save_all calls tbl))
  /\ (forall (calls : list (option Z * M)) (r : Z * M),
         In r (save_all calls []) ->
         image_within_bounds (Product.base (snd r))).
Proof.
  repeat split.
  - intros pk self tbl Himg. unfold Product.save. rewrite Himg. simpl. eauto.
  - intros calls tbl. apply save_all_preserves_table_ok.
  - intros calls r Hin.
    assert (Hok : table_ok (save_all calls [])).
    { apply save_all_preserves_table_ok. constructor. }
    unfold table_ok in Hok. rewrite Forall_forall in Hok. now apply Hok.
Qed.

Lemma C10_image_required_witness :
  (exists msg,
      Product.save None (Sample.notebook 1 PIL.NoFile 1000) []
      = (Raise (ValueError msg), []))
  /\ table_ok
       (save_all [ (None, Sample.notebook 1 (Sample.picture 600 800) 1000);
                   (None, Sample.notebook 1 PIL.NoFile 1000);
                   (Some 1, Sample.notebook 1 (Sample.picture 20 20) 1000) ]
                 []).
Proof.
  split.
  - apply (proj1 (C10_image_required Notebook.t _)). reflexivity.
  - apply (proj1 (proj2 (C10_image_required Notebook.t _))). constructor.
Defined.

(** ** [CartProduct.save] *)

Lemma find_map {A B : Type} (f : B -> bool) (g : A -> B) (l : list A) :
  find f (map g l) = option_map g (find (fun a => f (g a)) l).
Proof.
  induction l as [|a l IH]; simpl; [reflexivity|].
  destruct (f (g a)); [reflexivity | exact IH].
Qed.

(** [self.content_object.price] is the price the product tables hold
    for the referenced row. *)
Lemma current_price_is_referenced (db : Database) (self : CartProduct.t)
    (price : Z) :
  referenced_price db self = Some price ->
  (obj <- CartProduct.content_object db self ;; CartProduct.price_of obj)
  = Ok price.
Proof.
  unfold referenced_price, CartProduct.content_object, all_objects.
  destruct (ContentType.eqb (CartProduct.content_type self) ct_notebook);
    [|destruct (ContentType.eqb (CartProduct.content_type self) ct_smartphone)];
    cbn [bind].
  - rewrite find_map. cbn [instance_id].
    destruct (find _ (mainapp_notebook db)) as [r|]; simpl; congruence.
  - rewrite find_map. cbn [instance_id].
    destruct (find _ (mainapp_smartphone db)) as [r|]; simpl; congruence.
  - discriminate.
Qed.

Lemma cart_product_save_delegates (db : Database) (pk : option Z)
    (self : CartProduct.t) (tbl : Table CartProduct.t) (price : Z) :
  (obj <- CartProduct.content_object db self ;; CartProduct.price_of obj)
  = Ok price ->
  CartProduct.save db pk self tbl
  = saved_as (with_final_price self (CartProduct.qty self * price))
             (Model_save pk (with_final_price self (CartProduct.qty self * price))
                         tbl).
Proof.
  intros Hprice. unfold CartProduct.save. rewrite Hprice. reflexivity.
Qed.

(** C1 (amended).  When the generic reference of a line item points to a
    row of the notebook or smartphone table, saving the item replaces
    [final_price], whatever it held, by [qty] times the price that row
    holds now, and hands the item to [Model.save].  Whenever the save
    returns, the returned item and the row stored under its key carry
    that amount, the other fields as they were.  When the amount needs
    ten digits or more the save raises and the table is left as it
    was. *)
Theorem C1_cart_product_final_price
    (db : Database) (pk : option Z) (self : CartProduct.t)
    (tbl : Table CartProduct.t) (price : Z) :
  referenced_price db self = Some price ->
  CartProduct.save db pk self tbl
  = saved_as (with_final_price self (CartProduct.qty self * price))
             (Model_save pk (with_final_price self (CartProduct.qty self * price))
                         tbl)
  /\ (forall i saved tbl',
         CartProduct.save db pk self tbl = (Ok (i, saved), tbl') ->
         saved = with_final_price self (CartProduct.qty self * price)
         /\ CartProduct.final_price saved = CartProduct.qty self * price
         /\ Table_get i tbl' = Some (i, saved))
  /\ (1000000000 <= Z.abs (CartProduct.qty self * price) ->
      CartProduct.save db pk self tbl = (Raise InvalidOperation, tbl)).
Proof.
  intros Href. apply current_price_is_referenced in Href.
  pose proof (cart_product_save_delegates db pk self tbl price Href) as Hsave.
  split; [exact Hsave|]. split.
  - intros i saved tbl' H. rewrite Hsave in H.
    destruct (Model_save pk _ tbl) as [[j|e] t] eqn:E; simpl in H;
      [|discriminate].
    injection H as -> <- ->.
    repeat split. now apply (Model_save_stores pk _ tbl).
  - intros Hbig. rewrite Hsave.
    rewrite (Model_save_digits pk _ tbl (CartProduct.qty self * price));
      [reflexivity | now left | assumption].
Qed.

Lemma C1_cart_product_final_price_witness :
  CartProduct.save Sample.shop None (Sample.line ct_smartphone 2 3) []
  = saved_as (with_final_price (Sample.line ct_smartphone 2 3) (3 * 700))
             (Model_save None
                (with_final_price (Sample.line ct_smartphone 2 3) (3 * 700)) [])
  /\ CartProduct.save Sample.shop None (Sample.line ct_smartphone 2 3) []
     = (Ok (1, with_final_price (Sample.line ct_smartphone 2 3) 2100),
        [(1, with_final_price (Sample.line ct_smartphone 2 3) 2100)]).
Proof.
  split.
  - apply (C1_cart_product_final_price Sample.shop None
             (Sample.line ct_smartphone 2 3) [] 700).
    reflexivity.
  - reflexivity.
Defined.

(** C1 as written fails: quantity 2 of a notebook priced 9999999.99 is a
    quantity of at least 1 at a price of at least 0, and saving the item
    raises [InvalidOperation] and stores nothing, the amount
    19999999.98 having ten digits. *)
Lemma C1_counterexample :
  referenced_price dear_shop (Sample.line ct_notebook 1 2) = Some 999999999
  /\ 1 <= CartProduct.qty (Sample.line ct_notebook 1 2)
  /\ CartProduct.save dear_shop None (Sample.line ct_notebook 1 2) []
     = (Raise InvalidOperation, []).
Proof. repeat split; try reflexivity. simpl. lia. Qed.

(** The two line items of the specification's example: quantity 1 at
    10.00 gives 10.00, quantity 3 at 5.00 gives 15.00. *)
Example final_price_examples :
  fst (CartProduct.save Sample.shop None (Sample.line ct_notebook 1 1) [])
  = Ok (1, with_final_price (Sample.line ct_notebook 1 1) 1000)
  /\ fst (CartProduct.save Sample.shop None (Sample.line ct_smartphone 1 3) [])
     = Ok (1, with_final_price (Sample.line ct_smartphone 1 3) 1500).
Proof. split; reflexivity. Qed.

(** A reference that resolves to nothing makes [save] raise before
    anything is stored. *)
Example final_price_dangling_reference :
  CartProduct.save Sample.shop None (Sample.line ct_notebook 42 1) []
  = (Raise (AttributeError "price"), []).
Proof. reflexivity. Qed.

(** ** Stable sorting *)

Section StableSort.

Context {A : Type}.

Lemma insert_by_perm (le : A -> A -> bool) (x : A) (l : list A) :
  Permutation (insert_by le x l) (x :: l).
Proof.
  induction l as [|y l IH]; simpl; [reflexivity|].
  destruct (le x y); [reflexivity|].
  rewrite IH. apply perm_swap.
Qed.

Lemma stable_sort_perm (le : A -> A -> bool) (l : list A) :
  Permutation (stable_sort le l) l.
Proof.
  induction l as [|x l IH]; simpl; [reflexivity|].
  rewrite insert_by_perm. now constructor.
Qed.

(** Inserting walks past every element the new one is not below. *)
Lemma insert_by_skip (le : A -> A -> bool) (x : A) (l1 l2 : list A) :
  Forall (fun y => le x y = false) l1 ->
  insert_by le x (l1 ++ l2) = l1 ++ insert_by le x l2.
Proof.
  induction 1 as [|y l1 Hy _ IH]; simpl; [reflexivity|].
  now rewrite Hy, IH.
Qed.


Variable key : A -> bool.



End StableSort.

Lemma StronglySorted_app_cross {A : Type} (R : A -> A -> Prop) (l1 l2 : list A) :
  StronglySorted R (l1 ++ l2) ->
  StronglySorted R l1 /\ forall x y, In x l1 -> In y l2 -> R x y.
Proof.
  induction l1 as [|a l1 IH]; simpl; intros H.
  - split; [constructor | contradiction].
  - inversion H as [|? ? Hs Hall]; subst.
    destruct (IH Hs) as [Hs1 Hcross].
    apply Forall_app in Hall as [Hall1 Hall2].
    split; [now constructor|].
    intros x y [<-|Hx] Hy; [|now apply Hcross].
    rewrite Forall_forall in Hall2. now apply Hall2.
Qed.

Lemma order_by_minus_id_sorted (qs : list Instance) :
  StronglySorted (fun x y => instance_id y <= instance_id x)
                 (order_by_minus_id qs).
Proof.
  unfold order_by_minus_id.
  induction qs as [|x qs IH]; simpl; [constructor|].
  set (le := fun x y : Instance => instance_id y <=? instance_id x) in *.
  set (s := stable_sort le qs) in *. clearbody s. clear qs.
  induction s as [|y s IHs]; simpl.
  - repeat constructor.
  - inversion IH as [|? ? Hs Hall]; subst.
    destruct (le x y) eqn:E; unfold le in E.
    + apply Z.leb_le in E. constructor; [assumption|].
      constructor; [assumption|].
      rewrite Forall_forall in *. intros z Hz. specialize (Hall z Hz). lia.
    + apply Z.leb_gt in E. constructor; [now apply IHs|].
      rewrite Forall_forall in *. intros z Hz.
      apply (Permutation_in _ (insert_by_perm le x s)) in Hz.
      destruct Hz as [<-|Hz]; [lia | now apply Hall].
Qed.

Lemma latest_greatest_5_ids (rows : list Instance) :
  greatest_5_ids rows (latest_5 rows).
Proof.
  unfold latest_5.
  pose proof (order_by_minus_id_sorted rows) as Hs.
  assert (Hp : Permutation (order_by_minus_id rows) rows)
    by apply stable_sort_perm.
  rewrite <- (firstn_skipn 5 (order_by_minus_id rows)) in Hs.
  apply StronglySorted_app_cross in Hs as [Hs1 Hcross].
  split; [|split].
  - rewrite length_firstn. now rewrite (Permutation_length Hp).
  - exact Hs1.
  - exists (skipn 5 (order_by_minus_id rows)). split; [|exact Hcross].
    rewrite firstn_skipn. now symmetry.
Qed.

(** When the keys grow with the order of creation, ordering by [-id]
    is reading the table backwards. *)
Lemma order_by_minus_id_of_growing_keys (rows : list Instance) :
  keys_grow rows -> order_by_minus_id rows = rev rows.
Proof.
  unfold keys_grow, order_by_minus_id.
  induction 1 as [|x rows Hs IH Hall]; simpl; [reflexivity|].
  rewrite IH.
  rewrite <- (app_nil_r (rev rows)) at 1.
  rewrite insert_by_skip; [reflexivity|].
  apply Forall_forall. intros y Hy. apply in_rev in Hy.
  rewrite Forall_forall in Hall. specialize (Hall y Hy).
  apply Z.leb_gt. exact Hall.
Qed.

(** ** [LatestProductsManager.get_products_for_main_page] *)

Lemma bind_ret {A : Type} (r : result A) : (x <- r ;; Ok x) = r.
Proof. now destruct r. Qed.

Lemma all_objects_stored (db : Database) (ct : ContentType.t) :
  all_objects db ct
  = match stored_rows db ct with
    | Some rows => Ok rows
    | None => Raise (AttributeError "_base_manager")
    end.
Proof.
  unfold all_objects, stored_rows.
  destruct (ContentType.eqb ct ct_notebook); [reflexivity|].
  destruct (ContentType.eqb ct ct_smartphone); [reflexivity|].
  now destruct (other_rows db ct).
Qed.

Lemma fetch_loop_ok (db : Database) (cts : list ContentType.t)
    (rowss : list (list Instance)) (acc : list Instance) :
  Forall2 (fun ct rows => all_objects db ct = Ok rows) cts rowss ->
  LatestProductsManager.fetch_loop db cts acc
  = Ok (acc ++ List.concat (map latest_5 rowss)).
Proof.
  intros H. revert acc.
  induction H as [|ct rows cts rowss Hct _ IH]; intros acc; simpl.
  - now rewrite app_nil_r.
  - rewrite Hct. cbn [bind]. rewrite IH. now rewrite app_assoc.
Qed.

Lemma fetch_loop_inv (db : Database) (cts : list ContentType.t)
    (acc products : list Instance) :
  LatestProductsManager.fetch_loop db cts acc = Ok products ->
  exists rowss,
    Forall2 (fun ct rows => all_objects db ct = Ok rows) cts rowss
    /\ products = acc ++ List.concat (map latest_5 rowss).
Proof.
  revert acc. induction cts as [|ct cts IH]; intros acc; simpl.
  - intros H. injection H as <-. exists []. split; [constructor|].
    simpl. now rewrite app_nil_r.
  - destruct (all_objects db ct) as [rows|e] eqn:Hct; cbn [bind];
      [|discriminate].
    intros H. apply IH in H as (rowss & Hall & ->).
    exists (rows :: rowss). split; [now constructor|].
    simpl. now rewrite app_assoc.
Qed.

Lemma fetch_loop_stale (db : Database) (cts : list ContentType.t)
    (acc : list Instance) :
  Exists (fun ct => stored_rows db ct = None) cts ->
  LatestProductsManager.fetch_loop db cts acc
  = Raise (AttributeError "_base_manager").
Proof.
  intros H. revert acc.
  induction cts as [|ct cts IH]; intros acc; [inversion H|].
  simpl. rewrite all_objects_stored.
  destruct (stored_rows db ct) as [rows|] eqn:Hct; cbn [bind]; [|reflexivity].
  apply IH. inversion H as [? ? Hhead|? ? Htail]; subst; [congruence|assumption].
Qed.

Lemma exists_filter_length {A : Type} (f : A -> bool) (l : list A) :
  negb (Nat.eqb (List.length (filter f l)) 0) = existsb f l.
Proof.
  induction l as [|x l IH]; simpl; [reflexivity|].
  destruct (f x); simpl; auto.
Qed.

Lemma contains_In (args : list string) (s : string) :
  LatestProductsManager.contains args s = true <-> In s args.
Proof.
  unfold LatestProductsManager.contains. rewrite existsb_exists. split.
  - intros (x & Hin & Heq). apply String.eqb_eq in Heq. now subst.
  - intros Hin. exists s. split; [assumption | apply String.eqb_refl].
Qed.

Lemma products_unless_reordering (db : Database) (args : list string)
    (with_respect_to : option string) :
  reordering_applies db args with_respect_to = false ->
  LatestProductsManager.get_products_for_main_page db args with_respect_to
  = LatestProductsManager.fetch db args.
Proof.
  unfold reordering_applies, LatestProductsManager.get_products_for_main_page.
  destruct with_respect_to as [w|]; [|intros _; apply bind_ret].
  simpl. intros H.
  destruct (LatestProductsManager.fetch db args) as [products|e];
    cbn [bind]; [|reflexivity].
  rewrite exists_filter_length.
  destruct (negb (w =? "")%string); simpl in *; [|reflexivity].
  destruct (existsb _ (django_content_type db)); simpl in *; [|reflexivity].
  now rewrite H.
Qed.

Lemma products_when_reordering (db : Database) (args : list string) (w : string) :
  reordering_applies db args (Some w) = true ->
  LatestProductsManager.get_products_for_main_page db args (Some w)
  = result_map (fun products => sorted products (starts_with w) true)
               (LatestProductsManager.fetch db args).
Proof.
  unfold reordering_applies, LatestProductsManager.get_products_for_main_page.
  simpl. intros H.
  destruct (LatestProductsManager.fetch db args) as [products|e];
    cbn [bind result_map]; [|reflexivity].
  rewrite exists_filter_length.
  destruct (negb (w =? "")%string); simpl in *; [|discriminate].
  destruct (existsb _ (django_content_type db)); simpl in *; [|discriminate].
  now rewrite H.
Qed.

Lemma ContentType_eqb_eq (a b : ContentType.t) :
  ContentType.eqb a b = true -> a = b.
Proof.
  unfold ContentType.eqb. destruct a, b. simpl.
  intros H. apply andb_true_iff in H as [H1 H2].
  apply String.eqb_eq in H1, H2. now subst.
Qed.

(** Objects fetched through a content type are instances of its model. *)
Lemma all_objects_model (db : Database) (ct : ContentType.t)
    (rows : list Instance) (x : Instance) :
  all_objects db ct = Ok rows ->
  In x rows -> meta_model_name x = ContentType.model ct.
Proof.
  unfold all_objects.
  destruct (ContentType.eqb ct ct_notebook) eqn:E1.
  { apply ContentType_eqb_eq in E1. subst ct. intros H. injection H as <-.
    intros H. apply in_map_iff in H as (r & <- & _). reflexivity. }
  destruct (ContentType.eqb ct ct_smartphone) eqn:E2.
  { apply ContentType_eqb_eq in E2. subst ct. intros H. injection H as <-.
    intros H. apply in_map_iff in H as (r & <- & _). reflexivity. }
  destruct (other_rows db ct) as [ids|]; [|discriminate].
  intros H. injection H as <-.
  intros H. apply in_map_iff in H as (r & <- & _). reflexivity.
Qed.

Lemma requested_In (db : Database) (args : list string) (ct : ContentType.t) :
  In ct (requested db args)
  <-> In ct (django_content_type db) /\ In (ContentType.model ct) args.
Proof.
  unfold requested. now rewrite filter_In, contains_In.
Qed.

Lemma In_latest (rows : list Instance) (x : Instance) :
  In x (latest_5 rows) -> In x rows.
Proof.
  unfold latest_5. intros H.
  apply (Permutation_in x
           (stable_sort_perm (fun a b => instance_id b <=? instance_id a) rows)).
  fold (order_by_minus_id rows).
  rewrite <- (firstn_skipn 5 (order_by_minus_id rows)).
  apply in_or_app. now left.
Qed.

Lemma Forall2_In_r {A B : Type} (R : A -> B -> Prop) (l1 : list A) (l2 : list B)
    (b : B) :
  Forall2 R l1 l2 -> In b l2 -> exists a, In a l1 /\ R a b.
Proof.
  induction 1 as [|a0 b0 l1 l2 Hab _ IH]; simpl; [contradiction|].
  intros [<-|Hin].
  - exists a0. auto.
  - destruct (IH Hin) as (a & Ha & Hr). exists a. auto.
Qed.

Lemma In_fetch (db : Database) (args : list string)
    (products : list Instance) (x : Instance) :
  LatestProductsManager.fetch db args = Ok products ->
  In x products ->
  exists ct rows,
    In ct (requested db args) /\ all_objects db ct = Ok rows /\ In x rows.
Proof.
  unfold LatestProductsManager.fetch. fold (requested db args).
  intros Hf Hx. apply fetch_loop_inv in Hf as (rowss & Hall & ->).
  simpl in Hx. apply in_concat in Hx as (chunk & Hchunk & Hx).
  apply in_map_iff in Hchunk as (rows & <- & Hrows).
  destruct (Forall2_In_r _ _ _ rows Hall Hrows) as (ct & Hct & Hobj).
  exists ct, rows. repeat split; auto. now apply In_latest.
Qed.

Lemma Forall2_map_r {A B : Type} (P : A -> B -> Prop) (f : A -> B) (l : list A) :
  (forall a, In a l -> P a (f a)) -> Forall2 P l (map f l).
Proof.
  induction l as [|a l IH]; simpl; intros H; constructor; auto.
Qed.




Lemma Forall2_map_right {A B C : Type} (R : A -> B -> Prop) (Q : A -> C -> Prop)
    (f : B -> C) (l1 : list A) (l2 : list B) :
  (forall a b, R a b -> Q a (f b)) ->
  Forall2 R l1 l2 -> Forall2 Q l1 (map f l2).
Proof.
  intros Hf. induction 1; simpl; constructor; auto.
Qed.

(** C7 (amended).  When the call does not reach its reordering and the
    model class of every requested content type exists, the result is
    the concatenation, over the content types of the table whose model
    is among the requested names, of one chunk per type; each chunk
    holds instances of that type only, namely the five rows of its table
    with the greatest [id] (all rows when there are fewer), greatest
    [id] first; these are the five rows created last when the keys grow
    with the order of creation.  When the model class of a requested
    content type is gone, the call raises [AttributeError]. *)
Theorem C7_latest_five_per_type
    (db : Database) (args : list string) (with_respect_to : option string) :
  reordering_applies db args with_respect_to = false ->
  (forall ct, In ct (requested db args)
              <-> In ct (django_content_type db) /\ In (ContentType.model ct) args)
  /\ (forall rowss,
         Forall2 (fun ct rows => stored_rows db ct = Some rows)
                 (requested db args) rowss ->
         exists chunks,
           LatestProductsManager.get_products_for_main_page db args with_respect_to
           = Ok (List.concat chunks)
           /\ Forall2
                (fun rows chunk =>
                   greatest_5_ids rows chunk
                   /\ (keys_grow rows -> chunk = latest_created_5 rows))
                rowss chunks
           /\ Forall2
                (fun ct chunk =>
                   Forall (fun x => meta_model_name x = ContentType.model ct) chunk)
                (requested db args) chunks)
  /\ (Exists (fun ct => stored_rows db ct = None) (requested db args) ->
      LatestProductsManager.get_products_for_main_page db args with_respect_to
      = Raise (AttributeError "_base_manager")).
Proof.
  intros Hno. rewrite (products_unless_reordering _ _ _ Hno).
  unfold LatestProductsManager.fetch. fold (requested db args).
  split; [intros ct; apply requested_In|]. split.
  - intros rowss Hstored.
    assert (Hall : Forall2 (fun ct rows => all_objects db ct = Ok rows)
                           (requested db args) rowss).
    { eapply Forall2_impl; [|exact Hstored].
      intros ct rows H. rewrite all_objects_stored. now rewrite H. }
    exists (map latest_5 rowss). split; [|split].
    + now rewrite (fetch_loop_ok db _ rowss [] Hall).
    + apply Forall2_map_r. intros rows _. split.
      * apply latest_greatest_5_ids.
      * intros Hgrow. unfold latest_5, latest_created_5.
        now rewrite order_by_minus_id_of_growing_keys.
    + eapply Forall2_map_right; [|exact Hall].
      intros ct rows Hct. apply Forall_forall. intros x Hx.
      apply (all_objects_model db ct rows x Hct). now apply In_latest.
  - apply fetch_loop_stale.
Qed.

Lemma C7_latest_five_per_type_witness :
  exists chunks,
    LatestProductsManager.get_products_for_main_page
      Sample.shop ["notebook"; "smartphone"] None
    = Ok (List.concat chunks)
    /\ Forall2
         (fun rows chunk =>
            greatest_5_ids rows chunk
            /\ (keys_grow rows -> chunk = latest_created_5 rows))
         [ map (fun r => INotebook (fst r) (snd r)) (mainapp_notebook Sample.shop);
           map (fun r => ISmartphone (fst r) (snd r)) (mainapp_smartphone Sample.shop) ]
         chunks
    /\ Forall2
         (fun ct chunk =>
            Forall (fun x => meta_model_name x = ContentType.model ct) chunk)
         (requested Sample.shop ["notebook"; "smartphone"]) chunks.
Proof.
  apply (C7_latest_five_per_type Sample.shop ["notebook"; "smartphone"] None).
  - reflexivity.
  - repeat constructor.
Defined.

(** On the sample catalogue: notebooks 3, 2, 1, then smartphones 2, 1. *)
Example latest_products_example :
  result_map (map (fun x => (meta_model_name x, instance_id x)))
    (LatestProductsManager.get_products_for_main_page
       Sample.shop ["notebook"; "smartphone"] None)
  = Ok [ ("notebook", 3); ("notebook", 2); ("notebook", 1);
         ("smartphone", 2); ("smartphone", 1) ].
Proof. reflexivity. Qed.

(** A requested content type without model class makes the call raise. *)
Example latest_products_stale_example :
  LatestProductsManager.get_products_for_main_page
    stale_shop ["notebook"; "tablet"] None
  = Raise (AttributeError "_base_manager").
Proof. reflexivity. Qed.

(** C7 as written fails: six notebooks saved under the keys 10, 11, 12,
    13, 14 and then 1 are stored in that order, and the call returns the
    keys 14 down to 10; the notebook created last, under key 1, is not
    returned, where the five created last are 1, 14, 13, 12, 11. *)
Lemma C7_counterexample :
  map fst (mainapp_notebook rekeyed_shop) = [10; 11; 12; 13; 14; 1]
  /\ result_map (map instance_id)
       (LatestProductsManager.get_products_for_main_page
          rekeyed_shop ["notebook"] None)
     = Ok [14; 13; 12; 11; 10]
  /\ map instance_id
       (latest_created_5
          (map (fun r => INotebook (fst r) (snd r)) (mainapp_notebook rekeyed_shop)))
     = [1; 14; 13; 12; 11].
Proof. repeat split. Qed.



(** The specification's example call: smartphones first, notebooks after. *)
Example respect_to_smartphone_example :
  result_map (map (fun x => (meta_model_name x, instance_id x)))
    (LatestProductsManager.get_products_for_main_page
       Sample.shop ["notebook"; "smartphone"] (Some "smartphone"))
  = Ok [ ("smartphone", 2); ("smartphone", 1);
         ("notebook", 3); ("notebook", 2); ("notebook", 1) ].
Proof. reflexivity. Qed.


(** ** [CategoryManager.get_categories_for_left_sidebar] *)

Section JoinCounts.

Lemma count_column_app (col : nat) (r1 r2 : list (list (option Z))) :
  CategoryManager.count_column col (r1 ++ r2)
  = CategoryManager.count_column col r1 + CategoryManager.count_column col r2.
Proof.
  unfold CategoryManager.count_column.
  rewrite filter_app, length_app. lia.
Qed.

Lemma count_column_0_cons (k : option Z) (rows : list (list (option Z))) :
  CategoryManager.count_column 0 (map (cons k) rows)
  = if not_null k then Z.of_nat (List.length rows) else 0.
Proof.
  unfold CategoryManager.count_column.
  destruct k as [z|]; simpl not_null.
  - apply (f_equal Z.of_nat).
    induction rows as [|r rows IH]; simpl; auto.
  - change 0 with (Z.of_nat 0). apply (f_equal Z.of_nat).
    induction rows as [|r rows IH]; simpl; auto.
Qed.

Lemma count_column_S_cons (col : nat) (k : option Z)
    (rows : list (list (option Z))) :
  CategoryManager.count_column (S col) (map (cons k) rows)
  = CategoryManager.count_column col rows.
Proof.
  unfold CategoryManager.count_column. apply (f_equal Z.of_nat).
  induction rows as [|r rows IH]; simpl; [reflexivity|].
  destruct (nth_error r col) as [[z|]|]; simpl; auto.
Qed.

Lemma count_first_column (side : list (option Z))
    (rows : list (list (option Z))) :
  CategoryManager.count_column 0 (flat_map (fun k => map (cons k) rows) side)
  = Z.of_nat (List.length (filter not_null side)) * Z.of_nat (List.length rows).
Proof.
  induction side as [|k side IH]; cbn [flat_map filter]; [reflexivity|].
  rewrite count_column_app, count_column_0_cons, IH.
  destruct k; cbn [not_null List.length]; lia.
Qed.

Lemma count_later_column (col : nat) (side : list (option Z))
    (rows : list (list (option Z))) :
  CategoryManager.count_column (S col)
    (flat_map (fun k => map (cons k) rows) side)
  = Z.of_nat (List.length side) * CategoryManager.count_column col rows.
Proof.
  induction side as [|k side IH]; cbn [flat_map List.length]; [reflexivity|].
  rewrite count_column_app, count_column_S_cons, IH. lia.
Qed.

Lemma outer_side_not_null (keys : list Z) :
  List.length (filter not_null (CategoryManager.outer_side keys))
  = List.length keys.
Proof.
  destruct keys as [|k keys]; [reflexivity|].
  unfold CategoryManager.outer_side.
  induction (k :: keys) as [|a l IH]; simpl; auto.
Qed.

Lemma outer_side_length (keys : list Z) :
  List.length (CategoryManager.outer_side keys)
  = Nat.max 1 (List.length keys).
Proof.
  destruct keys as [|k keys]; [reflexivity|].
  unfold CategoryManager.outer_side. rewrite length_map. simpl.
  now destruct (List.length keys).
Qed.

(** The counts of a query that joins two relations: each is multiplied
    by the number of joined rows the other relation contributes. *)
Lemma join_two_counts (a b : list Z) :
  CategoryManager.count_columns 0 [Count "notebook"; Count "smartphone"]
    (CategoryManager.join_rows
       [CategoryManager.outer_side a; CategoryManager.outer_side b])
  = [ ("notebook__count",
       Z.of_nat (List.length a) * Z.of_nat (Nat.max 1 (List.length b)));
      ("smartphone__count",
       Z.of_nat (Nat.max 1 (List.length a)) * Z.of_nat (List.length b)) ].
Proof.
  cbn [CategoryManager.count_columns CategoryManager.join_rows].
  rewrite count_first_column, count_later_column, count_first_column.
  rewrite !outer_side_not_null, !outer_side_length.
  cbn [flat_map map List.length app].
  replace (List.length (flat_map (fun k => [[k]]) (CategoryManager.outer_side b)))
    with (Nat.max 1 (List.length b)).
  - repeat f_equal. lia.
  - rewrite <- outer_side_length.
    induction (CategoryManager.outer_side b) as [|k l IH]; simpl; auto.
Qed.

End JoinCounts.

(** The annotated categories of the sidebar query, with [n] notebooks
    and [s] smartphones pointing to a category. *)
Lemma annotate_two_relations (db : Database) :
  CategoryManager.annotate db (get_models_get_count ["notebook"; "smartphone"])
  = map (fun c =>
           let n := List.length (CategoryManager.related db (fst c) "notebook") in
           let s := List.length (CategoryManager.related db (fst c) "smartphone") in
           {| CategoryManager.id := fst c;
              CategoryManager.fields := snd c;
              CategoryManager.annotations :=
                [ ("notebook__count", Z.of_nat n * Z.of_nat (Nat.max 1 s));
                  ("smartphone__count", Z.of_nat (Nat.max 1 n) * Z.of_nat s) ] |})
        (mainapp_category db).
Proof.
  unfold CategoryManager.annotate, get_models_get_count.
  apply map_ext. intros c. cbn [map]. now rewrite join_two_counts.
Qed.

Section Sidebar.

Variable reverse : string -> Dict string -> string.

Lemma sidebar_entry_cases (c : CategoryManager.Annotated) (n s : Z) :
  CategoryManager.annotations c
  = [("notebook__count", n); ("smartphone__count", s)] ->
  CategoryManager.sidebar_entry reverse c
  = if ("Ноутбуки" =? Category.name (CategoryManager.fields c))%string then
      Ok {| CategoryManager.name := Category.name (CategoryManager.fields c);
            CategoryManager.url := CategoryManager.get_absolute_url reverse c;
            CategoryManager.count := VInt n |}
    else if ("Смартфоны" =? Category.name (CategoryManager.fields c))%string then
      Ok {| CategoryManager.name := Category.name (CategoryManager.fields c);
            CategoryManager.url := CategoryManager.get_absolute_url reverse c;
            CategoryManager.count := VInt s |}
    else Raise (KeyError (Category.name (CategoryManager.fields c))).
Proof.
  intros Hann.
  unfold CategoryManager.sidebar_entry, CategoryManager.CATEGORY_NAME_COUNT_NAME.
  cbn [dict_get].
  destruct ("Ноутбуки" =? _)%string.
  { unfold bind, CategoryManager.getattr. rewrite Hann. reflexivity. }
  destruct ("Смартфоны" =? _)%string.
  { unfold bind, CategoryManager.getattr. rewrite Hann. reflexivity. }
  reflexivity.
Qed.

(** A list comprehension stops at the first category without a mapping. *)
Lemma comprehension_raises (qs : list CategoryManager.Annotated)
    (c : CategoryManager.Annotated) :
  (forall q, In q qs ->
     exists n s, CategoryManager.annotations q
                 = [("notebook__count", n); ("smartphone__count", s)]) ->
  In c qs ->
  Category.name (CategoryManager.fields c) <> "Ноутбуки" ->
  Category.name (CategoryManager.fields c) <> "Смартфоны" ->
  exists q,
    In q qs
    /\ Category.name (CategoryManager.fields q) <> "Ноутбуки"
    /\ Category.name (CategoryManager.fields q) <> "Смартфоны"
    /\ CategoryManager.comprehension reverse qs
       = Raise (KeyError (Category.name (CategoryManager.fields q))).
Proof.
  intros Hann Hin Hn Hs.
  induction qs as [|q qs IH]; [contradiction|].
  destruct (Hann q (or_introl eq_refl)) as (n & s & Hq).
  cbn [CategoryManager.comprehension].
  rewrite (sidebar_entry_cases q n s Hq).
  destruct ("Ноутбуки" =? _)%string eqn:E1;
    [|destruct ("Смартфоны" =? _)%string eqn:E2].
  - apply String.eqb_eq in E1.
    destruct Hin as [->|Hin]; [congruence|].
    destruct IH as (q' & Hq' & Hn' & Hs' & Hraise);
      [intros; apply Hann; now right | assumption |].
    exists q'. repeat split; auto; [now right|].
    cbn [bind]. now rewrite Hraise.
  - apply String.eqb_eq in E2.
    destruct Hin as [->|Hin]; [congruence|].
    destruct IH as (q' & Hq' & Hn' & Hs' & Hraise);
      [intros; apply Hann; now right | assumption |].
    exists q'. repeat split; auto; [now right|].
    cbn [bind]. now rewrite Hraise.
  - apply String.eqb_neq in E1, E2.
    exists q. repeat split; auto; now left.
Qed.

End Sidebar.

(** C5.  When some category bears a name other than the two labels of
    the mapping, [get_categories_for_left_sidebar] raises [KeyError] on
    the name of such a category (the first in the table) and returns no
    list. *)
Theorem C5_unmapped_category_name_raises
    (reverse : string -> Dict string -> string)
    (db : Database) (c : Z * Category.t) :
  In c (mainapp_category db) ->
  Category.name (snd c) <> "Ноутбуки" ->
  Category.name (snd c) <> "Смартфоны" ->
  exists c',
    In c' (mainapp_category db)
    /\ Category.name (snd c') <> "Ноутбуки"
    /\ Category.name (snd c') <> "Смартфоны"
    /\ CategoryManager.get_categories_for_left_sidebar reverse db
       = Raise (KeyError (Category.name (snd c'))).
Proof.
  intros Hin Hn Hs.
  unfold CategoryManager.get_categories_for_left_sidebar.
  rewrite annotate_two_relations.
  match goal with
  | |- context [map ?f (mainapp_category db)] => set (F := f)
  end.
  destruct (comprehension_raises reverse (map F (mainapp_category db)) (F c))
    as (q & Hq & Hqn & Hqs & Hraise); auto.
  - intros q Hq. apply in_map_iff in Hq as (c0 & <- & _).
    unfold F. cbn. eauto.
  - now apply in_map.
  - apply in_map_iff in Hq as (c' & <- & Hc').
    exists c'. repeat split; auto.
Qed.

Lemma C5_unmapped_category_name_raises_witness :
  exists c',
    In c' (mainapp_category Sample.shop_with_tablets)
    /\ Category.name (snd c') <> "Ноутбуки"
    /\ Category.name (snd c') <> "Смартфоны"
    /\ CategoryManager.get_categories_for_left_sidebar
         Sample.reverse Sample.shop_with_tablets
       = Raise (KeyError (Category.name (snd c'))).
Proof.
  apply (C5_unmapped_category_name_raises Sample.reverse Sample.shop_with_tablets
           (3, {| Category.name := "Планшеты"; Category.slug := "tablets" |})).
  - simpl. tauto.
  - discriminate.
  - discriminate.
Defined.

Example sidebar_with_tablets :
  CategoryManager.get_categories_for_left_sidebar
    Sample.reverse Sample.shop_with_tablets
  = Raise (KeyError "Планшеты").
Proof. reflexivity. Qed.

(** C6 at a failing input.  In the sample catalogue the category named
    "Ноутбуки" holds three notebooks and two smartphones; the sidebar
    reports 6 for it, the size of the join, where the claim asks for 3. *)
Theorem C6_count_is_the_size_of_the_join
    (reverse : string -> Dict string -> string) :
  List.length (CategoryManager.related Sample.shop 1 "notebook") = 3%nat
  /\ List.length (CategoryManager.related Sample.shop 1 "smartphone") = 2%nat
  /\ CategoryManager.get_categories_for_left_sidebar reverse Sample.shop
     = Ok [ {| CategoryManager.name := "Ноутбуки";
               CategoryManager.url := reverse "category_detail" [("slug", "notebooks")];
               CategoryManager.count := VInt 6 |};
            {| CategoryManager.name := "Смартфоны";
               CategoryManager.url := reverse "category_detail" [("slug", "smartphones")];
               CategoryManager.count := VInt 0 |} ].
Proof. repeat split. Qed.

(** ** The filter [product_spec] *)

Lemma append_assoc (a b c : string) :
  ((a ++ b) ++ c = a ++ b ++ c)%string.
Proof.
  induction a as [|x a IH]; simpl; [reflexivity|]. now rewrite IH.
Qed.

Lemma occurs_in_middle (row a b c : string) :
  occurs_in row b -> occurs_in row (a ++ b ++ c)%string.
Proof.
  intros (before & after & ->).
  exists (a ++ before)%string, (after ++ c)%string.
  now rewrite !append_assoc.
Qed.

Lemma render_items_extends (product : Instance) (items : Dict string)
    (acc out : string) :
  Specifications.render_items product items acc = Ok out ->
  exists more, out = (acc ++ more)%string.
Proof.
  revert acc. induction items as [|[name attr] items IH]; simpl; intros acc H.
  - injection H as <-. exists "". clear. induction acc; simpl; congruence.
  - destruct (Specifications.getattr product attr) as [v|e]; simpl in H;
      [|discriminate].
    apply IH in H as (more & ->).
    eexists. apply append_assoc.
Qed.

(** Every item of the table whose attribute can be read is rendered. *)
Lemma render_items_row (product : Instance) (items : Dict string)
    (acc out name attr : string) (v : Value) :
  In (name, attr) items ->
  Specifications.getattr product attr = Ok v ->
  Specifications.render_items product items acc = Ok out ->
  occurs_in (Specifications.TABLE_CONTENT name (Specifications.str v)) out.
Proof.
  intros Hin Hget. revert acc.
  induction items as [|[n a] items IH]; simpl; intros acc H; [contradiction|].
  destruct Hin as [Heq|Hin].
  - injection Heq as -> ->. rewrite Hget in H. simpl in H.
    apply render_items_extends in H as (more & ->).
    exists acc, more. apply append_assoc.
  - destruct (Specifications.getattr product a) as [v0|e]; simpl in H;
      [|discriminate].
    now apply (IH Hin _ H).
Qed.

(** Both branches of the filter leave the dictionary as the module
    defines it: the popped key is not one of its keys, and the assigned
    key already has that value. *)
Lemma toggle_sd_row_keeps_spec (product : Instance) :
  Specifications.toggle_sd_row product Specifications.PRODUCT_SPEC
  = (Ok tt, Specifications.PRODUCT_SPEC).
Proof.
  destruct product as [id n|id s|ct id]; try reflexivity.
  unfold Specifications.toggle_sd_row.
  destruct (Smartphone.sd s); reflexivity.
Qed.

(** The table of a smartphone always renders, and always shows the row
    of [sd_volume]. *)
Lemma smartphone_spec_has_sd_volume_row (id : Z) (s : Smartphone.t) :
  exists html,
    Specifications.product_spec (ISmartphone id s) Specifications.PRODUCT_SPEC
    = (Ok html, Specifications.PRODUCT_SPEC)
    /\ occurs_in
         (Specifications.TABLE_CONTENT "Макс. объём встраиваемой памяти"
            (Specifications.str (Specifications.opt_str (Smartphone.sd_volume s))))
         html.
Proof.
  unfold Specifications.product_spec.
  rewrite toggle_sd_row_keeps_spec.
  assert (Hrender :
            exists table,
              Specifications.get_product_spec Specifications.PRODUCT_SPEC
                (ISmartphone id s) (meta_model_name (ISmartphone id s))
              = Ok table).
  { eexists. reflexivity. }
  destruct Hrender as (table & Htable). rewrite Htable.
  eexists. split; [reflexivity|].
  unfold Specifications.mark_safe. apply occurs_in_middle.
  unfold Specifications.get_product_spec in Htable.
  cbn [meta_model_name Product.model_name Smartphone.variant] in Htable.
  cbn [Specifications.PRODUCT_SPEC dict_get String.eqb Ascii.eqb Bool.eqb bind]
    in Htable.
  eapply render_items_row; [| |exact Htable].
  - cbn [In]. do 6 right. left. reflexivity.
  - reflexivity.
Qed.

(** C3 at the failing inputs.  For every smartphone with [sd=False] the
    rendered table still contains the row labelled
    "Макс. объём встраиваемой памяти" with the instance's [sd_volume]:
    the key the filter pops, "Максимальный объем SD карты", is not a key
    of the table, so nothing is removed. *)
Theorem C3_sd_volume_row_not_removed (id : Z) (s : Smartphone.t) :
  Smartphone.sd s = false ->
  exists html,
    Specifications.product_spec (ISmartphone id s) Specifications.PRODUCT_SPEC
    = (Ok html, Specifications.PRODUCT_SPEC)
    /\ occurs_in
         (Specifications.TABLE_CONTENT "Макс. объём встраиваемой памяти"
            (Specifications.str (Specifications.opt_str (Smartphone.sd_volume s))))
         html.
Proof.
  intros _. apply smartphone_spec_has_sd_volume_row.
Qed.

Lemma C3_sd_volume_row_not_removed_witness :
  exists html,
    Specifications.product_spec
      (ISmartphone 1 (Sample.smartphone 1 500 false (Some "64")))
      Specifications.PRODUCT_SPEC
    = (Ok html, Specifications.PRODUCT_SPEC)
    /\ occurs_in
         (Specifications.TABLE_CONTENT "Макс. объём встраиваемой памяти" "64")
         html.
Proof.
  apply (C3_sd_volume_row_not_removed 1
           (Sample.smartphone 1 500 false (Some "64"))).
  reflexivity.
Defined.

(** With [sd=True] the row is present as well, as the claim says. *)
Lemma sd_volume_row_with_sd (id : Z) (s : Smartphone.t) :
  Smartphone.sd s = true ->
  exists html,
    Specifications.product_spec (ISmartphone id s) Specifications.PRODUCT_SPEC
    = (Ok html, Specifications.PRODUCT_SPEC)
    /\ occurs_in
         (Specifications.TABLE_CONTENT "Макс. объём встраиваемой памяти"
            (Specifications.str (Specifications.opt_str (Smartphone.sd_volume s))))
         html.
Proof.
  intros _. apply smartphone_spec_has_sd_volume_row.
Qed.

(** ** [Order.status] *)

(** C8 (amended).  The [status] field declares four choices, [new],
    [in_progress], [is_ready] and [completed], and an order built
    without a status has status [new], one of them.  The choices are not
    enforced: an order built with a status keeps it whatever it is, and
    whenever [Model.save] returns for an order, the row it stored has
    the status the order was built with. *)
Theorem C8_order_status_values
    (customer : Z) (first_name last_name phone : string)
    (cart : option Z) (address : option string)
    (status buying_type : option string) (comment : option string)
    (pk : option Z) (tbl tbl' : Table Order.t) (i : Z) :
  let order := Order.init customer first_name last_name phone cart address
                          status buying_type comment in
  Model_save pk order tbl = (Ok i, tbl') ->
  (status = None -> Order.status order = "new")
  /\ (forall v, status = Some v -> Order.status order = v)
  /\ option_map (fun r => Order.status (snd r)) (Table_get i tbl')
     = Some (Order.status order)
  /\ Order.admitted Order.STATUS_CHOICES "new" = true
  /\ (forall v, Order.admitted Order.STATUS_CHOICES v = true
                <-> In v ["new"; "in_progress"; "is_ready"; "completed"]).
Proof.
  intros order Hsave. repeat split.
  - now intros ->.
  - now intros v ->.
  - now rewrite (Model_save_stores pk order tbl tbl' i Hsave).
  - unfold Order.admitted, Order.STATUS_CHOICES. cbn [existsb fst In].
    rewrite !orb_true_iff, !String.eqb_eq.
    unfold Order.STATUS_NEW, Order.STATUS_IN_PROGRESS, Order.STATUS_READY,
      Order.STATUS_COMPLETED.
    intuition discriminate.
  - unfold Order.admitted, Order.STATUS_CHOICES. cbn [existsb fst In].
    rewrite !orb_true_iff, !String.eqb_eq.
    unfold Order.STATUS_NEW, Order.STATUS_IN_PROGRESS, Order.STATUS_READY,
      Order.STATUS_COMPLETED.
    intuition discriminate.
Qed.

Lemma C8_order_status_values_witness :
  option_map (fun r => Order.status (snd r))
    (Table_get 1
       [(1, Order.init 1 "Ivan" "Ivanov" "555" (Some 1) None None None None)])
  = Some (Order.status
            (Order.init 1 "Ivan" "Ivanov" "555" (Some 1) None None None None)).
Proof.
  apply (C8_order_status_values 1 "Ivan" "Ivanov" "555" (Some 1) None
           None None None None []
           [(1, Order.init 1 "Ivan" "Ivanov" "555" (Some 1) None None None None)]
           1).
  reflexivity.
Defined.

(** C8 as written fails: an order built with the status [bogus] has
    that status, which is outside the claimed set, and [Model.save]
    stores the order with it. *)
Lemma C8_counterexample :
  Order.status (Order.init 1 "Ivan" "Ivanov" "555" (Some 1) None
                           (Some "bogus") None None) = "bogus"
  /\ ~ In "bogus" ["new"; "in_progress"; "ready"; "completed"]
  /\ Model_save None
       (Order.init 1 "Ivan" "Ivanov" "555" (Some 1) None (Some "bogus") None None)
       []
     = (Ok 1,
        [(1, Order.init 1 "Ivan" "Ivanov" "555" (Some 1) None
                        (Some "bogus") None None)]).
Proof.
  repeat split. simpl. intuition discriminate.
Qed.

(** * Further properties *)

(** ** [Product.save]: outcome *)

(** X1.  [Product.save] returns a key and a table exactly when the
    instance carries a picture whose two dimensions lie in [300, 2500]
    and [Model.save] returns that key and that table for the instance;
    in particular it never returns for a picture outside the bounds. *)
Theorem save_succeeds_iff_within_bounds
    (M : Type) (V : Product.Variant M)
    (pk : option Z) (self : M) (tbl tbl' : Table M) (i : Z) :
  Product.save pk self tbl = (Ok i, tbl')
  <-> image_within_bounds (Product.base self)
      /\ Model_save pk self tbl = (Ok i, tbl').
Proof.
  destruct (save_cases pk self tbl) as [(e & He)|[Hb He]]; rewrite He.
  - split; [discriminate|].
    intros [(img & Himg & Hb) Hm].
    rewrite (save_within_bounds pk self tbl img Himg Hb), Hm in He.
    discriminate.
  - tauto.
Qed.

Lemma save_succeeds_iff_within_bounds_witness :
  image_within_bounds
    (Product.base (Sample.notebook 1 (Sample.picture 300 2500) 1000))
  /\ Model_save None (Sample.notebook 1 (Sample.picture 300 2500) 1000) []
     = (Ok 1, [(1, Sample.notebook 1 (Sample.picture 300 2500) 1000)]).
Proof.
  apply (proj1 (save_succeeds_iff_within_bounds Notebook.t _ None
                  (Sample.notebook 1 (Sample.picture 300 2500) 1000) []
                  [(1, Sample.notebook 1 (Sample.picture 300 2500) 1000)] 1)).
  reflexivity.
Defined.



(** ** [get_products_for_main_page]: size, content, edge cases *)

Lemma sorted_perm {A : Type} (l : list A) (key : A -> bool) (reverse : bool) :
  Permutation (sorted l key reverse) l.
Proof.
  unfold sorted. destruct reverse.
  - rewrite <- Permutation_rev, stable_sort_perm. symmetry. apply Permutation_rev.
  - apply stable_sort_perm.
Qed.

Lemma products_perm_fetch (db : Database) (args : list string)
    (with_respect_to : option string) :
  same_outcome (@Permutation Instance)
    (LatestProductsManager.get_products_for_main_page db args with_respect_to)
    (LatestProductsManager.fetch db args).
Proof.
  destruct (reordering_applies db args with_respect_to) eqn:E.
  - destruct with_respect_to as [w|]; [|discriminate].
    rewrite (products_when_reordering db args w E).
    destruct (LatestProductsManager.fetch db args);
      cbn [result_map same_outcome]; [apply sorted_perm | reflexivity].
  - rewrite (products_unless_reordering db args with_respect_to E).
    destruct (LatestProductsManager.fetch db args);
      cbn [same_outcome]; reflexivity.
Qed.

Lemma products_of_fetch (db : Database) (args : list string)
    (with_respect_to : option string) (products : list Instance) :
  LatestProductsManager.get_products_for_main_page db args with_respect_to
  = Ok products ->
  exists fetched,
    LatestProductsManager.fetch db args = Ok fetched
    /\ Permutation products fetched.
Proof.
  intros H. pose proof (products_perm_fetch db args with_respect_to) as P.
  rewrite H in P.
  destruct (LatestProductsManager.fetch db args) as [fetched|e]; simpl in P;
    [eauto | contradiction].
Qed.

(** Rearranging a list does not change how many of its elements pass a
    test. *)
Lemma filter_length_perm {A : Type} (keep : A -> bool) (xs ys : list A) :
  Permutation xs ys ->
  List.length (filter keep xs) = List.length (filter keep ys).
Proof.
  intros P. induction P; simpl.
  - reflexivity.
  - destruct (keep x); simpl; congruence.
  - destruct (keep x), (keep y); reflexivity.
  - congruence.
Qed.

Lemma ContentType_eqb_refl (a : ContentType.t) : ContentType.eqb a a = true.
Proof.
  unfold ContentType.eqb. now rewrite !String.eqb_refl.
Qed.

(** An instance fetched through a content type is told apart by it. *)
Lemma fetched_from (db : Database) (ct c : ContentType.t)
    (rows : list Instance) (x : Instance) :
  all_objects db c = Ok rows ->
  In x rows ->
  from_content_type ct x = ContentType.eqb ct c.
Proof.
  unfold all_objects.
  destruct (ContentType.eqb c ct_notebook) eqn:E1.
  { apply ContentType_eqb_eq in E1. subst c. intros H. injection H as <-.
    intros H. apply in_map_iff in H as (r & <- & _). reflexivity. }
  destruct (ContentType.eqb c ct_smartphone) eqn:E2.
  { apply ContentType_eqb_eq in E2. subst c. intros H. injection H as <-.
    intros H. apply in_map_iff in H as (r & <- & _). reflexivity. }
  destruct (other_rows db c) as [ids|]; [|discriminate].
  intros H. injection H as <-.
  intros H. apply in_map_iff in H as (r & <- & _). reflexivity.
Qed.

Lemma chunks_of_one_type (db : Database) (ct : ContentType.t)
    (cts : list ContentType.t) (rowss : list (list Instance)) :
  NoDup cts ->
  Forall2 (fun c rows => all_objects db c = Ok rows) cts rowss ->
  (List.length
     (filter (from_content_type ct) (List.concat (map latest_5 rowss))) <= 5)%nat
  /\ (~ In ct cts ->
      filter (from_content_type ct) (List.concat (map latest_5 rowss)) = []).
Proof.
  intros Hnd H. induction H as [|c rows cts rowss Hc _ IH]; simpl.
  - split; [lia | reflexivity].
  - inversion Hnd as [|? ? Hnotin Hnd']; subst.
    destruct (IH Hnd') as [IHle IHnil].
    rewrite filter_app, length_app.
    destruct (ContentType.eqb ct c) eqn:E.
    + apply ContentType_eqb_eq in E. subst c. split.
      * rewrite (IHnil Hnotin). simpl.
        pose proof (filter_length_le (from_content_type ct) (latest_5 rows)).
        pose proof (firstn_le_length 5 (order_by_minus_id rows)).
        unfold latest_5 in *. lia.
      * intros Hn. exfalso. apply Hn. now left.
    + assert (Hnil : filter (from_content_type ct) (latest_5 rows) = []).
      { destruct (filter (from_content_type ct) (latest_5 rows)) as [|x l] eqn:F;
          [reflexivity|].
        assert (Hx : In x (filter (from_content_type ct) (latest_5 rows)))
          by (rewrite F; now left).
        apply filter_In in Hx as [Hx Hfrom]. apply In_latest in Hx.
        rewrite (fetched_from db ct c rows x Hc Hx), E in Hfrom. discriminate. }
      rewrite Hnil. simpl. split; [exact IHle|].
      intros Hn. apply IHnil. intros Hin. apply Hn. now right.
Qed.

(** X4.  Whatever [with_respect_to] is, the call returns the fetched
    instances and nothing else: it raises what the plain call raises,
    and otherwise its result is a rearrangement of the plain
    concatenation. *)
Theorem reordering_keeps_all_items
    (db : Database) (args : list string) (with_respect_to : option string) :
  same_outcome (@Permutation Instance)
    (LatestProductsManager.get_products_for_main_page db args with_respect_to)
    (LatestProductsManager.get_products_for_main_page db args None).
Proof.
  rewrite (products_unless_reordering db args None eq_refl).
  apply products_perm_fetch.
Qed.

(** X5.  When the content types of the table are pairwise distinct, the
    result holds at most five instances of each content type. *)
Theorem at_most_five_per_requested_type
    (db : Database) (args : list string) (with_respect_to : option string)
    (products : list Instance) (ct : ContentType.t) :
  NoDup (django_content_type db) ->
  LatestProductsManager.get_products_for_main_page db args with_respect_to
  = Ok products ->
  (List.length (filter (from_content_type ct) products) <= 5)%nat.
Proof.
  intros Hnd Hget.
  apply products_of_fetch in Hget as (fetched & Hfetch & Hperm).
  rewrite (filter_length_perm (from_content_type ct) _ _ Hperm).
  unfold LatestProductsManager.fetch in Hfetch. fold (requested db args) in Hfetch.
  apply fetch_loop_inv in Hfetch as (rowss & Hall & ->). simpl.
  apply (chunks_of_one_type db ct (requested db args) rowss); [|exact Hall].
  unfold requested. now apply NoDup_filter.
Qed.

Lemma at_most_five_per_requested_type_witness :
  (List.length
     (filter (from_content_type Sample.ct_cartproduct)
        [ IOther Sample.ct_cartproduct 2; IOther Sample.ct_cartproduct 1;
          IOther Sample.ct_cart 1 ]) <= 5)%nat.
Proof.
  apply (at_most_five_per_requested_type Sample.shop ["cartproduct"; "cart"]
           (Some "cart")
           [ IOther Sample.ct_cartproduct 2; IOther Sample.ct_cartproduct 1;
             IOther Sample.ct_cart 1 ]
           Sample.ct_cartproduct).
  - simpl. repeat constructor; simpl; intuition discriminate.
  - reflexivity.
Defined.

(** X6.  Every returned instance is a stored row of a content type of
    the table whose model is one of the requested names; its own type
    name is that model. *)
Theorem returned_instances_are_requested
    (db : Database) (args : list string) (with_respect_to : option string)
    (products : list Instance) (x : Instance) :
  LatestProductsManager.get_products_for_main_page db args with_respect_to
  = Ok products ->
  In x products ->
  In (meta_model_name x) args
  /\ exists ct rows,
       In ct (django_content_type db)
       /\ ContentType.model ct = meta_model_name x
       /\ all_objects db ct = Ok rows
       /\ In x rows.
Proof.
  intros Hget Hx.
  apply products_of_fetch in Hget as (fetched & Hfetch & Hperm).
  apply (Permutation_in x Hperm) in Hx.
  destruct (In_fetch db args fetched x Hfetch Hx) as (ct & rows & Hct & Hrows & Hxr).
  apply requested_In in Hct as [Hct Hargs].
  pose proof (all_objects_model db ct rows x Hrows Hxr) as Hm.
  split; [now rewrite Hm|].
  exists ct, rows. auto.
Qed.

Lemma returned_instances_are_requested_witness :
  In "smartphone" ["notebook"; "smartphone"]
  /\ exists ct rows,
       In ct (django_content_type Sample.shop)
       /\ ContentType.model ct = "smartphone"
       /\ all_objects Sample.shop ct = Ok rows
       /\ In (ISmartphone 2 (Sample.smartphone 1 700 true (Some "128"))) rows.
Proof.
  refine (returned_instances_are_requested Sample.shop
            ["notebook"; "smartphone"] (Some "smartphone") _
            (ISmartphone 2 (Sample.smartphone 1 700 true (Some "128"))) _ _).
  - reflexivity.
  - simpl. left. reflexivity.
Defined.

(** X7.  When no content type of the table has a requested model, in
    particular when no name is requested, the result is empty, with or
    without [with_respect_to], and nothing is raised. *)
Theorem nothing_requested_nothing_returned
    (db : Database) (args : list string) (with_respect_to : option string) :
  (forall ct, In ct (django_content_type db) -> ~ In (ContentType.model ct) args) ->
  LatestProductsManager.get_products_for_main_page db args with_respect_to
  = Ok [].
Proof.
  intros Hnone.
  assert (Hreq : requested db args = []).
  { destruct (requested db args) as [|ct l] eqn:E; [reflexivity|].
    assert (Hct : In ct (requested db args)) by (rewrite E; now left).
    apply requested_In in Hct as [Hct Hargs]. now destruct (Hnone ct Hct). }
  assert (Hfetch : LatestProductsManager.fetch db args = Ok []).
  { unfold LatestProductsManager.fetch. fold (requested db args).
    now rewrite Hreq. }
  destruct (reordering_applies db args with_respect_to) eqn:E.
  - destruct with_respect_to as [w|]; [|discriminate].
    rewrite (products_when_reordering db args w E), Hfetch. reflexivity.
  - now rewrite (products_unless_reordering db args with_respect_to E).
Qed.

Lemma nothing_requested_nothing_returned_witness :
  LatestProductsManager.get_products_for_main_page Sample.shop [] (Some "notebook")
  = Ok [].
Proof.
  apply (nothing_requested_nothing_returned Sample.shop [] (Some "notebook")).
  intros ct _ Hin. exact Hin.
Defined.

(** X8.  An empty [with_respect_to], or one that is the model of no
    content type, changes nothing: the plain concatenation is returned
    even when that name is among the requested ones. *)
Theorem empty_or_unknown_respect_to_is_ignored
    (db : Database) (args : list string) (w : string) :
  w = "" \/ (forall ct, In ct (django_content_type db) -> ContentType.model ct <> w) ->
  LatestProductsManager.get_products_for_main_page db args (Some w)
  = LatestProductsManager.get_products_for_main_page db args None.
Proof.
  intros H.
  rewrite (products_unless_reordering db args None eq_refl).
  apply products_unless_reordering.
  unfold reordering_applies. destruct H as [->|Hnone]; [reflexivity|].
  destruct (existsb _ (django_content_type db)) eqn:E.
  - apply existsb_exists in E as (ct & Hct & Heq).
    apply String.eqb_eq in Heq. now destruct (Hnone ct Hct).
  - now rewrite andb_false_r.
Qed.

Lemma empty_or_unknown_respect_to_is_ignored_witness :
  LatestProductsManager.get_products_for_main_page
    Sample.shop ["notebook"; "smartphone"; "tablet"] (Some "tablet")
  = LatestProductsManager.get_products_for_main_page
      Sample.shop ["notebook"; "smartphone"; "tablet"] None.
Proof.
  apply (empty_or_unknown_respect_to_is_ignored Sample.shop
           ["notebook"; "smartphone"; "tablet"] "tablet").
  right. intros ct Hct. simpl in Hct.
  destruct Hct as [<-|[<-|[<-|[<-|[]]]]]; discriminate.
Defined.

(** ** [get_categories_for_left_sidebar]: when it returns, and what *)

Section SidebarShape.

Variable reverse : string -> Dict string -> string.
Variable db : Database.

Lemma comprehension_outcome (cats : list (Z * Category.t))
    (qs : list CategoryManager.Annotated) :
  Forall2 (annotated_as db) cats qs ->
  match CategoryManager.comprehension reverse qs with
  | Ok entries =>
      Forall (fun c => known_label (Category.name (snd c))) cats
      /\ Forall2 (entry_of reverse db) cats entries
  | Raise _ =>
      exists c, In c cats /\ ~ known_label (Category.name (snd c))
  end.
Proof.
  induction 1 as [|c q cats qs [Hf Hann] _ IH]; simpl.
  - split; constructor.
  - rewrite (sidebar_entry_cases reverse q _ _ Hann).
    unfold CategoryManager.get_absolute_url. rewrite Hf.
    destruct ("Ноутбуки" =? _)%string eqn:E1;
      [|destruct ("Смартфоны" =? _)%string eqn:E2]; cbn [bind].
    + destruct (CategoryManager.comprehension reverse qs) as [entries|e];
        cbn [bind].
      * destruct IH as [Hk He]. split.
        -- constructor; [|assumption].
           left. symmetry. now apply String.eqb_eq.
        -- constructor; [|assumption].
           unfold entry_of, sidebar_count.
           cbn [CategoryManager.name CategoryManager.url CategoryManager.count].
           rewrite E1. auto.
      * destruct IH as (c' & Hc' & Hn). exists c'. split; [now right|assumption].
    + destruct (CategoryManager.comprehension reverse qs) as [entries|e];
        cbn [bind].
      * destruct IH as [Hk He]. split.
        -- constructor; [|assumption].
           right. symmetry. now apply String.eqb_eq.
        -- constructor; [|assumption].
           unfold entry_of, sidebar_count.
           cbn [CategoryManager.name CategoryManager.url CategoryManager.count].
           rewrite E1. auto.
      * destruct IH as (c' & Hc' & Hn). exists c'. split; [now right|assumption].
    + apply String.eqb_neq in E1, E2.
      exists c. split; [now left|]. intros [Hn|Hn]; congruence.
Qed.

Lemma sidebar_outcome :
  match CategoryManager.get_categories_for_left_sidebar reverse db with
  | Ok entries =>
      Forall (fun c => known_label (Category.name (snd c))) (mainapp_category db)
      /\ Forall2 (entry_of reverse db) (mainapp_category db) entries
  | Raise _ =>
      exists c, In c (mainapp_category db)
                /\ ~ known_label (Category.name (snd c))
  end.
Proof.
  unfold CategoryManager.get_categories_for_left_sidebar.
  apply comprehension_outcome.
  rewrite annotate_two_relations.
  apply Forall2_map_r. intros c _. split; reflexivity.
Qed.

(** X9.  The sidebar query returns a list exactly when every category of
    the table bears one of the two mapped names. *)
Theorem sidebar_returns_iff_all_mapped :
  (exists entries,
      CategoryManager.get_categories_for_left_sidebar reverse db = Ok entries)
  <-> Forall (fun c => known_label (Category.name (snd c))) (mainapp_category db).
Proof.
  pose proof sidebar_outcome as H.
  destruct (CategoryManager.get_categories_for_left_sidebar reverse db)
    as [entries|e].
  - split; [intros _; apply H | intros _; eauto].
  - destruct H as (c & Hc & Hn). split.
    + intros (entries & Heq). discriminate.
    + intros Hall. rewrite Forall_forall in Hall. now destruct (Hn (Hall c Hc)).
Qed.

(** X10.  When it returns, the list has one entry per category, in table
    order; each carries the category's name, the URL [reverse] gives for
    its slug, and as count the size of the join of the category's
    notebooks and smartphones: notebooks times max(1, smartphones) under
    the name "Ноутбуки", max(1, notebooks) times smartphones under
    "Смартфоны". *)
Theorem sidebar_entries_shape (entries : list CategoryManager.SidebarEntry) :
  CategoryManager.get_categories_for_left_sidebar reverse db = Ok entries ->
  Forall2
    (fun c e =>
       CategoryManager.name e = Category.name (snd c)
       /\ CategoryManager.url e
          = reverse "category_detail" [("slug", Category.slug (snd c))]
       /\ CategoryManager.count e = VInt (sidebar_count db c))
    (mainapp_category db) entries.
Proof.
  intros Heq. pose proof sidebar_outcome as H. rewrite Heq in H. apply H.
Qed.

(** X11.  In a category named "Ноутбуки" that holds at most one
    smartphone the count is the number of its notebooks, and in one
    named "Смартфоны" that holds at most one notebook it is the number
    of its smartphones. *)
Theorem sidebar_count_exact_for_single_variant
    (entries : list CategoryManager.SidebarEntry) :
  CategoryManager.get_categories_for_left_sidebar reverse db = Ok entries ->
  Forall2
    (fun c e =>
       (Category.name (snd c) = "Ноутбуки" ->
        (smartphones_in db (fst c) <= 1)%nat ->
        CategoryManager.count e = VInt (Z.of_nat (notebooks_in db (fst c))))
       /\ (Category.name (snd c) = "Смартфоны" ->
           (notebooks_in db (fst c) <= 1)%nat ->
           CategoryManager.count e = VInt (Z.of_nat (smartphones_in db (fst c)))))
    (mainapp_category db) entries.
Proof.
  intros Heq. pose proof sidebar_outcome as H. rewrite Heq in H.
  destruct H as [_ H].
  eapply Forall2_impl; [|exact H].
  intros c e (_ & _ & Hcount). rewrite Hcount. unfold sidebar_count.
  split; intros Hname Hle; rewrite Hname; cbn [String.eqb Ascii.eqb Bool.eqb].
  - f_equal. replace (Nat.max 1 (smartphones_in db (fst c))) with 1%nat by lia.
    lia.
  - f_equal. replace (Nat.max 1 (notebooks_in db (fst c))) with 1%nat by lia.
    lia.
Qed.

End SidebarShape.

Lemma sidebar_returns_iff_all_mapped_witness :
  exists entries,
    CategoryManager.get_categories_for_left_sidebar Sample.reverse Sample.shop
    = Ok entries.
Proof.
  apply (proj2 (sidebar_returns_iff_all_mapped Sample.reverse Sample.shop)).
  repeat constructor; unfold known_label; simpl; tauto.
Defined.

Lemma sidebar_entries_shape_witness :
  Forall2
    (fun c e =>
       CategoryManager.name e = Category.name (snd c)
       /\ CategoryManager.url e
          = Sample.reverse "category_detail" [("slug", Category.slug (snd c))]
       /\ CategoryManager.count e = VInt (sidebar_count Sample.shop c))
    (mainapp_category Sample.shop)
    [ {| CategoryManager.name := "Ноутбуки";
         CategoryManager.url := "/category_detail/notebooks/";
         CategoryManager.count := VInt 6 |};
      {| CategoryManager.name := "Смартфоны";
         CategoryManager.url := "/category_detail/smartphones/";
         CategoryManager.count := VInt 0 |} ].
Proof.
  apply (sidebar_entries_shape Sample.reverse Sample.shop). reflexivity.
Defined.

Lemma sidebar_count_exact_for_single_variant_witness :
  Forall2
    (fun c e =>
       (Category.name (snd c) = "Ноутбуки" ->
        (smartphones_in tidy_shop (fst c) <= 1)%nat ->
        CategoryManager.count e = VInt (Z.of_nat (notebooks_in tidy_shop (fst c))))
       /\ (Category.name (snd c) = "Смартфоны" ->
           (notebooks_in tidy_shop (fst c) <= 1)%nat ->
           CategoryManager.count e
           = VInt (Z.of_nat (smartphones_in tidy_shop (fst c)))))
    (mainapp_category tidy_shop)
    [ {| CategoryManager.name := "Ноутбуки";
         CategoryManager.url := "/category_detail/notebooks/";
         CategoryManager.count := VInt 3 |};
      {| CategoryManager.name := "Смартфоны";
         CategoryManager.url := "/category_detail/smartphones/";
         CategoryManager.count := VInt 2 |} ].
Proof.
  apply (sidebar_count_exact_for_single_variant Sample.reverse tidy_shop).
  reflexivity.
Defined.

(** ** The filter [product_spec]: store, output, failure *)

Lemma product_spec_keeps_spec (product : Instance) :
  snd (Specifications.product_spec product Specifications.PRODUCT_SPEC)
  = Specifications.PRODUCT_SPEC.
Proof.
  unfold Specifications.product_spec. rewrite toggle_sd_row_keeps_spec.
  now destruct (Specifications.get_product_spec _ _ _).
Qed.

(** X12.  Rendering never changes the dictionary the module defines:
    after any sequence of renderings, of smartphones with or without SD
    card, of notebooks or of other objects, it is as at import, so each
    rendering gives what it would give alone. *)
Theorem renderings_do_not_interfere (earlier : list Instance) (product : Instance) :
  render_all earlier Specifications.PRODUCT_SPEC = Specifications.PRODUCT_SPEC
  /\ Specifications.product_spec product
       (render_all earlier Specifications.PRODUCT_SPEC)
     = Specifications.product_spec product Specifications.PRODUCT_SPEC.
Proof.
  assert (H : render_all earlier Specifications.PRODUCT_SPEC
              = Specifications.PRODUCT_SPEC).
  { unfold render_all.
    induction earlier as [|p ps IH]; simpl; [reflexivity|].
    now rewrite product_spec_keeps_spec. }
  split; [exact H | now rewrite H].
Qed.

(** The loop appends one row per item, in the order of the table. *)
Lemma render_items_rows (product : Instance) (items : Dict string)
    (rows : list (string * string)) (acc : string) :
  Forall2
    (fun item row =>
       fst row = fst item
       /\ exists v, Specifications.getattr product (snd item) = Ok v
                    /\ snd row = Specifications.str v)
    items rows ->
  Specifications.render_items product items acc
  = Ok (acc ++ rows_text rows)%string.
Proof.
  intros H. revert acc.
  induction H as [|[name attr] [label text] items rows (Hl & v & Hv & Ht) _ IH];
    intros acc; simpl in *.
  - f_equal. induction acc; simpl; congruence.
  - subst. rewrite Hv. simpl. rewrite IH. now rewrite append_assoc.
Qed.

(** X13.  The table of a notebook has the six rows of its specification
    in the declared order, each label with the instance's value, between
    the table head and tail; the table of a smartphone has the nine rows
    of its specification, the SD flag printed as [True] or [False] and a
    missing [sd_volume] as [None]. *)
Theorem product_spec_renders_all_rows :
  (forall id n,
      Specifications.product_spec (INotebook id n) Specifications.PRODUCT_SPEC
      = (Ok (Specifications.TABLE_HEAD
             ++ rows_text
                  [ ("Диагональ", Notebook.diagonal n);
                    ("Тип дисплея", Notebook.display_type n);
                    ("Частота процессора", Notebook.processor_freq n);
                    ("Оперативная память", Notebook.ram n);
                    ("Видеокарта", Notebook.video n);
                    ("Время работы аккумулятора", Notebook.time_without_charge n) ]
             ++ Specifications.TABLE_TAIL)%string,
         Specifications.PRODUCT_SPEC))
  /\ (forall id s,
         Specifications.product_spec (ISmartphone id s) Specifications.PRODUCT_SPEC
         = (Ok (Specifications.TABLE_HEAD
                ++ rows_text
                     [ ("Диагональ", Smartphone.diagonal s);
                       ("Тип дисплея", Smartphone.display_type s);
                       ("Разрешение экрана", Smartphone.resolution s);
                       ("Объем батареи", Smartphone.accum_volume s);
                       ("Оперативная память", Smartphone.ram s);
                       ("SD карта", if Smartphone.sd s then "True" else "False");
                       ("Макс. объём встраиваемой памяти",
                        match Smartphone.sd_volume s with
                        | Some v => v
                        | None => "None"
                        end);
                       ("Камера (МП)", Smartphone.main_cam s);
                       ("Фронтальная камера (МП)", Smartphone.front_cam s) ]
                ++ Specifications.TABLE_TAIL)%string,
            Specifications.PRODUCT_SPEC)).
Proof.
  split; intros id x; unfold Specifications.product_spec;
    rewrite toggle_sd_row_keeps_spec;
    unfold Specifications.get_product_spec, Specifications.mark_safe;
    cbn [meta_model_name Product.model_name Notebook.variant Smartphone.variant
         Specifications.PRODUCT_SPEC dict_get String.eqb Ascii.eqb Bool.eqb bind].
  - erewrite render_items_rows; [reflexivity|].
    repeat constructor; cbn [fst snd]; eexists; split; reflexivity.
  - erewrite render_items_rows; [reflexivity|].
    repeat constructor; cbn [fst snd]; eexists; split; try reflexivity.
    now destruct (Smartphone.sd_volume x).
Qed.

(** X14.  Applied to an object that is neither a notebook nor a
    smartphone, the filter raises [KeyError] on the object's model name
    and produces no table. *)
Theorem product_spec_unknown_model_raises (ct : ContentType.t) (id : Z) :
  ContentType.model ct <> "notebook" ->
  ContentType.model ct <> "smartphone" ->
  Specifications.product_spec (IOther ct id) Specifications.PRODUCT_SPEC
  = (Raise (KeyError (ContentType.model ct)), Specifications.PRODUCT_SPEC).
Proof.
  intros Hn Hs.
  assert (En : ("notebook" =? ContentType.model ct)%string = false)
    by (apply String.eqb_neq; congruence).
  assert (Es : ("smartphone" =? ContentType.model ct)%string = false)
    by (apply String.eqb_neq; congruence).
  unfold Specifications.product_spec, Specifications.toggle_sd_row,
    Specifications.get_product_spec.
  cbn [meta_model_name Specifications.PRODUCT_SPEC dict_get].
  now rewrite En, Es.
Qed.

Lemma product_spec_unknown_model_raises_witness :
  Specifications.product_spec (IOther Sample.ct_cart 1) Specifications.PRODUCT_SPEC
  = (Raise (KeyError "cart"), Specifications.PRODUCT_SPEC).
Proof.
  apply (product_spec_unknown_model_raises Sample.ct_cart 1); discriminate.
Defined.

(** ** [CartProduct]: failure, saving again, printing *)

Lemma get_has_id {M : Type} (i : Z) (m : M) (tbl : Table M) :
  Table_get i tbl = Some (i, m) -> has_id i tbl = true.
Proof.
  unfold Table_get, has_id. intros H.
  apply find_some in H as [Hin _].
  apply existsb_exists. exists (i, m). split; [assumption|]. apply Z.eqb_refl.
Qed.

Lemma update_row_same {M : Type} (i : Z) (m : M) (tbl : Table M) :
  Table_get i tbl = Some (i, m) -> update_row i m tbl = tbl.
Proof.
  unfold Table_get.
  induction tbl as [|[j old] tbl IH]; simpl; [reflexivity|].
  rewrite (Z.eqb_sym j i).
  destruct (i =? j) eqn:E.
  - intros H. now injection H as -> ->.
  - intros H. now rewrite IH.
Qed.

(** For a model without unique field, what [Model.save] has stored it
    stores again, under the same key, without changing the table. *)
Lemma Model_save_again {M : Type} {Mo : Model M} (pk : option Z) (m : M)
    (tbl tbl' : Table M) (i : Z) :
  unique_slug m = None ->
  Model_save pk m tbl = (Ok i, tbl') ->
  Model_save (Some i) m tbl' = (Ok i, tbl').
Proof.
  intros Hu Hsave.
  pose proof (Model_save_stores pk m tbl tbl' i Hsave) as Hget.
  unfold Model_save, slug_taken in *. rewrite Hu in *.
  destruct (negb (forallb fits_max_digits (decimal_fields m)));
    [discriminate|].
  rewrite orb_false_r in *.
  destruct (negb (forallb (Z.leb 0) (positive_integer_fields m)));
    [discriminate|].
  now rewrite (get_has_id i m tbl' Hget), (update_row_same i m tbl' Hget).
Qed.

(** What the generic foreign key finds, by the kind of content type. *)
Lemma content_object_cases (db : Database) (self : CartProduct.t) :
  CartProduct.content_object db self
  = if ContentType.eqb (CartProduct.content_type self) ct_notebook
    then Ok (option_map (fun r => INotebook (fst r) (snd r))
               (find (fun r => fst r =? CartProduct.object_id self)
                     (mainapp_notebook db)))
    else if ContentType.eqb (CartProduct.content_type self) ct_smartphone
    then Ok (option_map (fun r => ISmartphone (fst r) (snd r))
               (find (fun r => fst r =? CartProduct.object_id self)
                     (mainapp_smartphone db)))
    else match other_rows db (CartProduct.content_type self) with
         | Some ids =>
             Ok (option_map (IOther (CartProduct.content_type self))
                   (find (fun id => id =? CartProduct.object_id self) ids))
         | None => Raise (AttributeError "_base_manager")
         end.
Proof.
  unfold CartProduct.content_object, all_objects.
  destruct (ContentType.eqb (CartProduct.content_type self) ct_notebook);
    [|destruct (ContentType.eqb (CartProduct.content_type self) ct_smartphone);
      [|destruct (other_rows db (CartProduct.content_type self))]];
    cbn [bind]; try reflexivity; now rewrite find_map.
Qed.

(** X15.  When the generic reference does not point to a row of the
    notebook or smartphone table, [CartProduct.save] raises
    [AttributeError], whatever the quantity and the key, and leaves the
    table as it was: on [price] when the content type has a model class
    (no such row, or a row of a model without price), on [_base_manager]
    when it has none. *)
Theorem cart_product_save_needs_a_product
    (db : Database) (pk : option Z) (self : CartProduct.t)
    (tbl : Table CartProduct.t) :
  referenced_price db self = None ->
  CartProduct.save db pk self tbl
  = (Raise (AttributeError
              match stored_rows db (CartProduct.content_type self) with
              | Some _ => "price"
              | None => "_base_manager"
              end), tbl).
Proof.
  unfold referenced_price, stored_rows, CartProduct.save.
  rewrite content_object_cases.
  destruct (ContentType.eqb (CartProduct.content_type self) ct_notebook);
    [|destruct (ContentType.eqb (CartProduct.content_type self) ct_smartphone)].
  - destruct (find _ (mainapp_notebook db)); [discriminate | reflexivity].
  - destruct (find _ (mainapp_smartphone db)); [discriminate | reflexivity].
  - intros _.
    destruct (other_rows db (CartProduct.content_type self)) as [ids|];
      [|reflexivity].
    cbn [option_map bind]. now destruct (find _ ids).
Qed.

Lemma cart_product_save_needs_a_product_witness :
  CartProduct.save Sample.shop (Some 3) (Sample.line Sample.ct_cart 1 2) []
  = (Raise (AttributeError "price"), []).
Proof.
  apply (cart_product_save_needs_a_product Sample.shop (Some 3)
           (Sample.line Sample.ct_cart 1 2) []).
  reflexivity.
Defined.

(** X16.  Saving the instance a successful [CartProduct.save] returned,
    under the key it returned and against the same catalogue, returns
    the same instance and leaves the table as it is. *)
Theorem cart_product_save_again_is_stable
    (db : Database) (pk : option Z) (self self' : CartProduct.t)
    (tbl tbl' : Table CartProduct.t) (i : Z) :
  CartProduct.save db pk self tbl = (Ok (i, self'), tbl') ->
  CartProduct.save db (Some i) self' tbl' = (Ok (i, self'), tbl').
Proof.
  unfold CartProduct.save.
  destruct (obj <- CartProduct.content_object db self ;; CartProduct.price_of obj)
    as [price|e] eqn:Hprice; [|discriminate].
  match goal with
  | |- context [Model_save pk ?m tbl] => set (saved := m)
  end.
  destruct (Model_save pk saved tbl) as [[k|e] t] eqn:E; [|discriminate].
  intros H. injection H as -> <- ->.
  assert (Hobj : CartProduct.content_object db saved
                 = CartProduct.content_object db self) by reflexivity.
  rewrite Hobj, Hprice.
  change {| CartProduct.user := CartProduct.user saved;
            CartProduct.cart := CartProduct.cart saved;
            CartProduct.content_type := CartProduct.content_type saved;
            CartProduct.object_id := CartProduct.object_id saved;
            CartProduct.qty := CartProduct.qty saved;
            CartProduct.final_price := CartProduct.qty saved * price |}
    with saved.
  assert (Hu : unique_slug saved = None) by reflexivity.
  now rewrite (Model_save_again pk saved tbl tbl' i Hu E).
Qed.

Lemma cart_product_save_again_is_stable_witness :
  CartProduct.save Sample.shop (Some 1)
    (with_final_price (Sample.line ct_notebook 2 3) 6000)
    [(1, with_final_price (Sample.line ct_notebook 2 3) 6000)]
  = (Ok (1, with_final_price (Sample.line ct_notebook 2 3) 6000),
     [(1, with_final_price (Sample.line ct_notebook 2 3) 6000)]).
Proof.
  apply (cart_product_save_again_is_stable Sample.shop None
           (Sample.line ct_notebook 2 3) _ [] _ 1).
  reflexivity.
Defined.

(** X17.  [CartProduct.__str__] depends on the reference alone: it
    returns the title of the referenced row of the notebook or
    smartphone table between the fixed words, and raises
    [AttributeError] when the reference points to no such row.  Hence
    an item that [save] accepted can always be printed. *)
Theorem cart_product_str_follows_the_reference
    (db : Database) (pk : option Z) (self : CartProduct.t)
    (tbl : Table CartProduct.t) :
  (forall title,
      referenced_title db self = Some title ->
      CartProduct.__str__ db self
      = Ok ("Продукт: " ++ title ++ " (для корзины)")%string)
  /\ (referenced_title db self = None ->
      exists attr, CartProduct.__str__ db self = Raise (AttributeError attr))
  /\ (forall r tbl',
         CartProduct.save db pk self tbl = (Ok r, tbl') ->
         exists text, CartProduct.__str__ db self = Ok text).
Proof.
  unfold referenced_title, CartProduct.__str__, CartProduct.save.
  rewrite content_object_cases.
  destruct (ContentType.eqb (CartProduct.content_type self) ct_notebook);
    [|destruct (ContentType.eqb (CartProduct.content_type self) ct_smartphone)].
  - destruct (find _ (mainapp_notebook db)) as [r|]; cbn; repeat split.
    + intros title H. now injection H as <-.
    + discriminate.
    + eauto.
    + discriminate.
    + eauto.
    + discriminate.
  - destruct (find _ (mainapp_smartphone db)) as [r|]; cbn; repeat split.
    + intros title H. now injection H as <-.
    + discriminate.
    + eauto.
    + discriminate.
    + eauto.
    + discriminate.
  - destruct (other_rows db (CartProduct.content_type self)) as [ids|];
      [destruct (find _ ids)|]; cbn; repeat split;
      try discriminate; eauto.
Qed.

Lemma cart_product_str_follows_the_reference_witness :
  CartProduct.__str__ Sample.shop (Sample.line ct_smartphone 2 1)
  = Ok "Продукт: title (для корзины)".
Proof.
  apply (proj1 (cart_product_str_follows_the_reference Sample.shop None
                  (Sample.line ct_smartphone 2 1) []) "title").
  reflexivity.
Defined.

(** ** The SD branch of [product_spec] on any dictionary *)

Lemma dict_get_set_same {V : Type} (d : Dict V) (key : string) (v : V) :
  dict_get (dict_set d key v) key = Ok v.
Proof.
  induction d as [|[k old] d IH]; simpl.
  - now rewrite String.eqb_refl.
  - destruct (k =? key)%string eqn:E; simpl; rewrite E; auto.
Qed.

Lemma dict_get_pop_other {V : Type} (d : Dict V) (key key' : string) :
  key' <> key -> dict_get (dict_pop d key) key' = dict_get d key'.
Proof.
  intros Hne. induction d as [|[k v] d IH]; simpl; [reflexivity|].
  destruct (k =? key)%string eqn:E; simpl.
  - apply String.eqb_eq in E. subst k.
    apply not_eq_sym in Hne. apply String.eqb_neq in Hne. now rewrite Hne.
  - destruct (k =? key')%string; auto.
Qed.

(** X19.  In whatever state earlier code left the dictionary, provided
    it still has a smartphone table, the SD branch never takes the row
    labelled "Макс. объём встраиваемой памяти" out of that table: for a
    smartphone without SD card the lookup of that label gives what it
    gave before, for one with SD card it gives [sd_volume]. *)
Theorem sd_branch_never_removes_the_row
    (spec : Dict (Dict string)) (inner : Dict string) (id : Z) (s : Smartphone.t) :
  dict_get spec "smartphone" = Ok inner ->
  exists spec' inner',
    Specifications.toggle_sd_row (ISmartphone id s) spec = (Ok tt, spec')
    /\ dict_get spec' "smartphone" = Ok inner'
    /\ (Smartphone.sd s = false ->
        dict_get inner' "Макс. объём встраиваемой памяти"
        = dict_get inner "Макс. объём встраиваемой памяти")
    /\ (Smartphone.sd s = true ->
        dict_get inner' "Макс. объём встраиваемой памяти" = Ok "sd_volume").
Proof.
  intros Hinner. unfold Specifications.toggle_sd_row. rewrite Hinner.
  destruct (Smartphone.sd s); cbn [negb].
  - eexists. eexists. split; [reflexivity|]. split; [apply dict_get_set_same|].
    split; [discriminate|]. intros _. apply dict_get_set_same.
  - eexists. eexists. split; [reflexivity|]. split; [apply dict_get_set_same|].
    split; [|discriminate]. intros _. apply dict_get_pop_other. discriminate.
Qed.

Lemma sd_branch_never_removes_the_row_witness :
  exists spec' inner',
    Specifications.toggle_sd_row
      (ISmartphone 1 (Sample.smartphone 1 500 false None))
      [("smartphone", [("Макс. объём встраиваемой памяти", "sd_volume")])]
    = (Ok tt, spec')
    /\ dict_get spec' "smartphone" = Ok inner'
    /\ (false = false ->
        dict_get inner' "Макс. объём встраиваемой памяти"
        = dict_get [("Макс. объём встраиваемой памяти", "sd_volume")]
                   "Макс. объём встраиваемой памяти")
    /\ (false = true ->
        dict_get inner' "Макс. объём встраиваемой памяти" = Ok "sd_volume").
Proof.
  apply (sd_branch_never_removes_the_row
           [("smartphone", [("Макс. объём встраиваемой памяти", "sd_volume")])]
           [("Макс. объём встраиваемой памяти", "sd_volume")]
           1 (Sample.smartphone 1 500 false None)).
  reflexivity.
Defined.
